(** * QuestLog: the gamification core of [app.py]

    A shallow embedding of the service, repository and boss-arena code of
    [app.py], and the properties of its specification proved (or refuted)
    against it.

    Python [int] is [Z]; a [numpy.int64] is a [Z] with its wrap-around
    written out.  A [datetime.date] is the triple of its [year],
    [month] and [day]; a naive [datetime.time] is its four fields.  A pandas
    [DataFrame] of tasks is the list of its rows, in row order.  The Streamlit
    session state is a record of the three keys [initialize_session]
    creates. *)

From Stdlib Require Import ZArith List String Ascii Bool Lia QArith.
From Stdlib Require Import Sorting.Sorted Permutation.
Import ListNotations.

Local Open Scope string_scope.
Local Open Scope list_scope.
Local Open Scope Z_scope.

(* ================================================================== *)
(** * 1. Configuration and constants *)
(* ================================================================== *)

Module GameConfig.
Definition XP_PER_TASK : Z := 50.
Definition BOSS_DMG_PER_TASK : Z := 10.
Definition LEVEL_BASE_XP : Z := 500.
Definition BOSS_BONUS_XP : Z := 500.
End GameConfig.

(* ================================================================== *)
(** * 2. [datetime.date] and [datetime.time] *)
(* ================================================================== *)

(** The part of Python's [datetime] module the program calls: date
    comparison (in [sorted]), date subtraction with [.days], [isoformat] and
    [fromisoformat]. *)

Record date : Type := mkdate { year : Z; month : Z; day : Z }.

Record time : Type :=
  mktime { hour : Z; minute : Z; second : Z; microsecond : Z }.

Module Datetime.

Definition MINYEAR : Z := 1.
Definition MAXYEAR : Z := 9999.

(** [_is_leap]: year % 4 == 0 and (year % 100 != 0 or year % 400 == 0) *)
Definition is_leap (y : Z) : bool :=
  (y mod 4 =? 0) && (negb (y mod 100 =? 0) || (y mod 400 =? 0)).

(** [_DAYS_IN_MONTH], a table indexed by the month, 1 .. 12 *)
Definition DAYS_IN_MONTH (m : Z) : Z :=
  match m with
  | 1 => 31 | 2 => 28 | 3 => 31 | 4 => 30 | 5 => 31 | 6 => 30
  | 7 => 31 | 8 => 31 | 9 => 30 | 10 => 31 | 11 => 30 | 12 => 31
  | _ => -1
  end.

(** [_DAYS_BEFORE_MONTH], the running sum of [_DAYS_IN_MONTH] *)
Definition DAYS_BEFORE_MONTH (m : Z) : Z :=
  match m with
  | 1 => 0 | 2 => 31 | 3 => 59 | 4 => 90 | 5 => 120 | 6 => 151
  | 7 => 181 | 8 => 212 | 9 => 243 | 10 => 273 | 11 => 304 | 12 => 334
  | _ => -1
  end.

Definition days_in_month (y m : Z) : Z :=
  if (m =? 2) && is_leap y then 29 else DAYS_IN_MONTH m.

(** [_days_before_year]: y = year - 1; y*365 + y//4 - y//100 + y//400 *)
Definition days_before_year (y : Z) : Z :=
  let y' := y - 1 in y' * 365 + y' / 4 - y' / 100 + y' / 400.

Definition days_before_month (y m : Z) : Z :=
  DAYS_BEFORE_MONTH m + (if (2 <? m) && is_leap y then 1 else 0).

(** [_ymd2ord] *)
Definition ymd2ord (y m d : Z) : Z :=
  days_before_year y + days_before_month y m + d.

(** What the [date] constructor checks ([_check_date_fields]); every
    [date] object of a running program satisfies it. *)
Definition valid_date (d : date) : bool :=
  (MINYEAR <=? year d) && (year d <=? MAXYEAR) &&
  (1 <=? month d) && (month d <=? 12) &&
  (1 <=? day d) && (day d <=? days_in_month (year d) (month d)).

(** What the [time] constructor checks ([_check_time_fields]). *)
Definition valid_time (t : time) : bool :=
  (0 <=? hour t) && (hour t <=? 23) &&
  (0 <=? minute t) && (minute t <=? 59) &&
  (0 <=? second t) && (second t <=? 59) &&
  (0 <=? microsecond t) && (microsecond t <=? 999999).

Definition toordinal (d : date) : Z := ymd2ord (year d) (month d) (day d).

(** [(a - b).days]: date subtraction builds
    [timedelta(days = a.toordinal() - b.toordinal())]. *)
Definition days_between (a b : date) : Z := toordinal a - toordinal b.

(** Date comparison compares the (year, month, day) triples. *)
Definition date_compare (a b : date) : comparison :=
  match year a ?= year b with
  | Eq => match month a ?= month b with
          | Eq => day a ?= day b
          | c => c
          end
  | c => c
  end.

Definition date_eqb (a b : date) : bool :=
  match date_compare a b with Eq => true | _ => false end.
Definition date_ltb (a b : date) : bool :=
  match date_compare a b with Lt => true | _ => false end.
Definition date_leb (a b : date) : bool :=
  match date_compare a b with Gt => false | _ => true end.

End Datetime.

(** ** ISO 8601 text of dates and times

    [isoformat] as the [datetime] module writes it, and [fromisoformat] on
    the forms the module documents for naive values: [YYYY-MM-DD] for a date
    and [HH[:MM[:SS[.fff[fff]]]]] for a time.  This is less than Python
    reads: every string read here is read by [fromisoformat] of every Python
    since 3.7, to the same value, and this includes all that [isoformat]
    writes; Python also reads a time with a UTC offset (an aware time, which
    the [time] of this model does not hold) and, from 3.11 on, further ISO
    forms such as [20261104].  So [None] here does not mean that Python
    raises; no property below is read that way. *)

Module Iso.
Import Datetime.

Definition digit (k : Z) : ascii := ascii_of_nat (Z.to_nat (48 + k)).

Definition digit_val (c : ascii) : option Z :=
  let n := Z.of_nat (nat_of_ascii c) in
  if (48 <=? n) && (n <=? 57) then Some (n - 48) else None.

(** ["%0<n>d" % k] followed by [rest], for [0 <= k < 10^n] *)
Fixpoint zfill (n : nat) (k : Z) (rest : string) : string :=
  match n with
  | O => rest
  | S n' => zfill n' (k / 10) (String (digit (k mod 10)) rest)
  end.

(** Reads exactly [n] decimal digits; [acc] is the value read so far. *)
Fixpoint read_digits (n : nat) (acc : Z) (s : string) : option (Z * string) :=
  match n with
  | O => Some (acc, s)
  | S n' =>
      match s with
      | String c s' =>
          match digit_val c with
          | Some v => read_digits n' (10 * acc + v) s'
          | None => None
          end
      | EmptyString => None
      end
  end.

(** [date.isoformat()]: "%04d-%02d-%02d" % (year, month, day) *)
Definition date_isoformat (d : date) : string :=
  zfill 4 (year d) (String "-" (zfill 2 (month d)
                   (String "-" (zfill 2 (day d) EmptyString)))).

(** [time.isoformat()]: "%02d:%02d:%02d", and ".%06d" when the
    microsecond is not zero *)
Definition time_isoformat (t : time) : string :=
  zfill 2 (hour t) (String ":" (zfill 2 (minute t) (String ":"
    (zfill 2 (second t)
       (if microsecond t =? 0 then EmptyString
        else String "." (zfill 6 (microsecond t) EmptyString)))))).

(** The constructors raise [ValueError] on fields out of range. *)
Definition make_date (y m d : Z) : option date :=
  let r := mkdate y m d in if valid_date r then Some r else None.

Definition make_time (h m s us : Z) : option time :=
  let r := mktime h m s us in if valid_time r then Some r else None.

(** [date.fromisoformat]; [None] stands for the [ValueError]. *)
Definition date_fromisoformat (s : string) : option date :=
  match read_digits 4 0 s with
  | Some (y, String "-" s1) =>
      match read_digits 2 0 s1 with
      | Some (m, String "-" s2) =>
          match read_digits 2 0 s2 with
          | Some (d, EmptyString) => make_date y m d
          | _ => None
          end
      | _ => None
      end
  | _ => None
  end.

(** The fraction: three or six digits, thousandths or millionths. *)
Definition read_fraction (s : string) : option Z :=
  match String.length s with
  | 3%nat => match read_digits 3 0 s with
             | Some (f, _) => Some (f * 1000)
             | None => None
             end
  | 6%nat => match read_digits 6 0 s with
             | Some (f, _) => Some f
             | None => None
             end
  | _ => None
  end.

(** [time.fromisoformat]; [None] stands for the [ValueError]. *)
Definition time_fromisoformat (s : string) : option time :=
  match read_digits 2 0 s with
  | Some (h, EmptyString) => make_time h 0 0 0
  | Some (h, String ":" s1) =>
      match read_digits 2 0 s1 with
      | Some (m, EmptyString) => make_time h m 0 0
      | Some (m, String ":" s2) =>
          match read_digits 2 0 s2 with
          | Some (sec, EmptyString) => make_time h m sec 0
          | Some (sec, String "." s3) =>
              match read_fraction s3 with
              | Some us => make_time h m sec us
              | None => None
              end
          | _ => None
          end
      | _ => None
      end
  | _ => None
  end.

End Iso.

(* ================================================================== *)
(** * 3. The data model *)
(* ================================================================== *)

(** One row of the task table; the columns are the keys of
    [GameConfig.DEFAULT_TASK].  The row type is parametric in what the
    [Date], [Start] and [End] cells hold: [date] and [time] objects in the
    session, ISO strings in a save file, and a mix of both while [load_data]
    converts the columns one after the other. *)
Record Row (D S E : Type) : Type := mkRow {
  Title : string;
  Description : string;
  Date : D;
  Start : S;
  End_ : E;
  Status : bool;
  Color : string
}.

Arguments mkRow {D S E} _ _ _ _ _ _ _.
Arguments Title {D S E} _.
Arguments Description {D S E} _.
Arguments Date {D S E} _.
Arguments Start {D S E} _.
Arguments End_ {D S E} _.
Arguments Status {D S E} _.
Arguments Color {D S E} _.

Definition Task : Type := Row date time time.

Definition DataFrame : Type := list Task.

(** [df.empty] *)
Definition empty {A : Type} (df : list A) : bool :=
  match df with [] => true | _ => false end.

(** The boss dictionary that the summon form creates. *)
Record Boss : Type := mkBoss {
  Name : string;
  MaxHP : Z;
  CurrentHP : Z;
  Image : string
}.

(** [st.session_state] after [initialize_session]. *)
Record session : Type := mksession {
  tasks : DataFrame;
  boss_xp : Z;
  active_boss : option Boss
}.

(* ================================================================== *)
(** * 4. Library calls of the service layer *)
(* ================================================================== *)

(** The class of an integer object.  The value of an integer is a [Z];
    where the program depends on the class of the object as well, the
    class is given beside the value. *)
Inductive int_class : Type :=
| py_int      (* Python's int *)
| np_int64.   (* numpy.int64 *)

(** Arithmetic of [numpy.int64] with a Python [int]: the Python [int] is
    converted to [int64], which raises [OverflowError] when it does not
    fit, and the result of the operation wraps around. *)
Module Numpy.

Definition fits_int64 (z : Z) : bool :=
  (-9223372036854775808 <=? z) && (z <=? 9223372036854775807).

Definition wrap_int64 (z : Z) : Z :=
  (z + 9223372036854775808) mod 18446744073709551616 - 9223372036854775808.

(** [a * b] and [a + b] for a [numpy.int64] [a] and a Python [int] [b];
    [None] stands for the [OverflowError]. *)
Definition mul (a b : Z) : option Z :=
  if fits_int64 b then Some (wrap_int64 (a * b)) else None.

Definition add (a b : Z) : option Z :=
  if fits_int64 b then Some (wrap_int64 (a + b)) else None.


End Numpy.

Module Pandas.
Import Datetime.

(** [Series.sum()] of a column of booleans: they add as 0s and 1s.  The
    result is a [numpy.int64]; a table has fewer than 2^63 rows, so the sum
    itself does not wrap. *)
Definition sum (col : list bool) : Z :=
  fold_right (fun (b : bool) acc => (if b then 1 else 0) + acc) 0 col.

(** [Series.unique()]: the distinct values in order of first appearance,
    found with a table of the values already seen. *)
Fixpoint unique_from (seen : list date) (l : list date) : list date :=
  match l with
  | [] => []
  | d :: l' =>
      if existsb (date_eqb d) seen then unique_from seen l'
      else d :: unique_from (d :: seen) l'
  end.

Definition unique (l : list date) : list date := unique_from [] l.

Definition time_eqb (a b : time) : bool :=
  (hour a =? hour b) && (minute a =? minute b)
  && (second a =? second b) && (microsecond a =? microsecond b).

(** Two rows hold equal cells. *)
Definition row_eqb (a b : Task) : bool :=
  String.eqb (Title a) (Title b)
  && String.eqb (Description a) (Description b)
  && date_eqb (Date a) (Date b)
  && time_eqb (Start a) (Start b) && time_eqb (End_ a) (End_ b)
  && Bool.eqb (Status a) (Status b)
  && String.eqb (Color a) (Color b).

(** [DataFrame.equals]: the same number of rows, and equal cells row by
    row. *)
Fixpoint equals (a b : DataFrame) : bool :=
  match a, b with
  | [], [] => true
  | x :: a', y :: b' => row_eqb x y && equals a' b'
  | _, _ => false
  end.

End Pandas.

Module Builtins.
Import Datetime.

(** [sorted(..., reverse=True)] on dates, as an insertion sort from the
    right end: an element goes in front of the first one that is not
    greater than it. *)
Fixpoint insert_desc (d : date) (l : list date) : list date :=
  match l with
  | [] => [d]
  | x :: l' => if date_ltb d x then x :: insert_desc d l' else d :: l
  end.

Definition sorted_reverse (l : list date) : list date :=
  fold_right insert_desc [] l.

End Builtins.

(* ================================================================== *)
(** * 5. Service layer *)
(* ================================================================== *)

Record stats : Type := mkstats { xp : Z; level : Z; progress : Q }.

Module GamificationService.
Import Datetime.

(** On a table that is not empty [completed_count] is the [numpy.int64]
    that [sum()] returns, and so are [current_xp] and [level]: the product
    and the sum wrap around, and a [boss_xp] that is no [int64] raises
    [OverflowError] ([None]).  [level] cannot wrap, [current_xp // 500]
    being far from the bounds.  On the empty table all three are Python
    ints.  [progress] is the true division of two integers below 500; it is
    kept as the exact rational, which the float result rounds. *)
Definition calculate_stats (df : DataFrame) (boss_xp : Z) : option stats :=
  let stats_of current_xp :=
    let level := current_xp / GameConfig.LEVEL_BASE_XP + 1 in
    let progress :=
      (inject_Z (current_xp mod GameConfig.LEVEL_BASE_XP)
       / inject_Z GameConfig.LEVEL_BASE_XP)%Q in
    {| xp := current_xp; level := level; progress := progress |} in
  if negb (empty df) then
    let completed_count := Pandas.sum (map Status df) in
    match Numpy.mul completed_count GameConfig.XP_PER_TASK with
    | Some task_xp =>
        match Numpy.add task_xp boss_xp with
        | Some current_xp => Some (stats_of current_xp)
        | None => None
        end
    | None => None
    end
  else
    let completed_count := 0 in
    Some (stats_of (completed_count * GameConfig.XP_PER_TASK + boss_xp)).

(** [completed = df[df['Status'] == True]] *)
Definition completed (df : DataFrame) : DataFrame :=
  filter (fun t => Bool.eqb (Status t) true) df.

(** [dates = sorted(completed['Date'].unique(), reverse=True)] *)
Definition dates (df : DataFrame) : list date :=
  Builtins.sorted_reverse (Pandas.unique (map Date (completed df))).

(** The [for i in range(1, len(dates))] loop, run over [dates[1:]]. *)
Fixpoint walk (current_date : date) (rest : list date) (streak : Z) : Z :=
  match rest with
  | [] => streak
  | d :: rest' =>
      if days_between current_date d =? 1
      then walk d rest' (streak + 1)
      else streak                                  (* break *)
  end.

(** [today] is the value of [date.today()] at the call. *)
Definition calculate_streak (today : date) (df : DataFrame) : Z :=
  if empty df then 0 else
  if empty (completed df) then 0 else
  match dates df with
  | [] => 0                                        (* if not dates *)
  | d0 :: rest =>
      if days_between today d0 >? 1 then 0
      else walk d0 rest 1
  end.

End GamificationService.

Module BossManager.

(** [boss['CurrentHP'] -= damage; return boss, damage].  The dictionary is
    updated in place and returned; the record returned here is the new value
    of that one object, under every name that refers to it. *)
Definition deal_damage (boss : Boss) (hit_count : Z) : Boss * Z :=
  let damage := hit_count * GameConfig.BOSS_DMG_PER_TASK in
  ({| Name := Name boss; MaxHP := MaxHP boss;
      CurrentHP := CurrentHP boss - damage; Image := Image boss |},
   damage).


End BossManager.

(* ================================================================== *)
(** * 6. Session state with exceptions *)
(* ================================================================== *)

(** Code that assigns to [st.session_state] and may raise.  An exception
    ends the computation ([None]) and keeps every assignment made before it:
    Python has no rollback. *)
Module SessionM.

Definition M (A : Type) : Type := session -> session * option A.

Definition ret {A} (a : A) : M A := fun s => (s, Some a).

Definition bind {A B} (m : M A) (k : A -> M B) : M B :=
  fun s => match m s with
           | (s', Some a) => k a s'
           | (s', None) => (s', None)
           end.

(** [raise]; the three exceptions of the modelled code are handled
    alike, so their class is not kept. *)
Definition raise {A} : M A := fun s => (s, None).

(** The value of a library call that raises instead of returning. *)
Definition lift {A} (o : option A) : M A :=
  match o with Some a => ret a | None => raise end.

(** [try: body  except Exception: handler] *)
Definition try_except {A} (body handler : M A) : M A :=
  fun s => match body s with
           | (s', Some a) => (s', Some a)
           | (s', None) => handler s'
           end.

Definition get : M session := fun s => (s, Some s).

Definition set_tasks (df : DataFrame) : M unit :=
  fun s => ({| tasks := df; boss_xp := boss_xp s;
               active_boss := active_boss s |}, Some tt).

Definition set_boss_xp (n : Z) : M unit :=
  fun s => ({| tasks := tasks s; boss_xp := n;
               active_boss := active_boss s |}, Some tt).

Definition set_active_boss (b : option Boss) : M unit :=
  fun s => ({| tasks := tasks s; boss_xp := boss_xp s;
               active_boss := b |}, Some tt).

End SessionM.

Notation "x <- m ;; k" := (SessionM.bind m (fun x => k))
  (at level 61, m at next level, right associativity).
Notation "m ;;; k" := (SessionM.bind m (fun _ => k))
  (at level 61, right associativity).

(* ================================================================== *)
(** * 7. Repository layer *)
(* ================================================================== *)

(** A task as a save file holds it: the three date and time cells are
    strings. *)
Definition TaskRecord : Type := Row string string string.

(** The object [json.load] returns for a save file, read at the three keys
    [load_data] reads.  [None] is a key that is absent; for [active_boss] it
    is also the JSON [null], which [.get("active_boss", None)] does not tell
    apart from an absent key. *)
Record SaveFile : Type := mkSaveFile {
  f_tasks : option (list TaskRecord);
  f_boss_xp : option Z;
  f_active_boss : option Boss
}.

(** [d.get(key, default)] *)
Definition dict_get {A} (v : option A) (default : A) : A :=
  match v with Some a => a | None => default end.

(** [st.session_state] as a run finds it: each of the three keys may be
    missing. *)
Record session_state : Type := mksession_state {
  ss_tasks : option DataFrame;
  ss_boss_xp : option Z;
  ss_active_boss : option (option Boss)
}.

(** The session state with all its keys, as the next run finds it. *)
Definition stored (s : session) : session_state :=
  {| ss_tasks := Some (tasks s); ss_boss_xp := Some (boss_xp s);
     ss_active_boss := Some (active_boss s) |}.

(** What the user is shown at the end of [load_data]. *)
Inductive load_report : Type :=
| Loaded           (* st.success(...); st.rerun() *)
| CorruptSaveFile. (* st.error("Corrupt save file: ...") *)

Module StateRepository.
Import SessionM.

(** [json.JSONEncoder] with [DateEncoder.default] on one record of
    [tasks.to_dict(orient="records")]: dates and times become their
    [isoformat()]. *)
Definition encode_record (t : Task) : TaskRecord :=
  mkRow (Title t) (Description t)
        (Iso.date_isoformat (Date t))
        (Iso.time_isoformat (Start t))
        (Iso.time_isoformat (End_ t))
        (Status t) (Color t).

(** The object whose JSON text [export_data] returns.  [hp] is the class
    of [boss['CurrentHP']] when a boss is active: [DateEncoder.default]
    hands every object that is no date or time to [super().default], which
    raises [TypeError], and a [numpy.int64] is such an object ([None]).
    The bonus XP and [MaxHP] are Python ints throughout the program. *)
Definition export_data (hp : int_class) (s : session) : option SaveFile :=
  match active_boss s, hp with
  | Some _, np_int64 => None
  | _, _ =>
      Some {| f_tasks := Some (map encode_record (tasks s));
              f_boss_xp := Some (boss_xp s);
              f_active_boss := active_boss s |}
  end.

(** [xs.apply(f)] where [f] may raise: the first failure aborts. *)
Fixpoint apply {A B} (f : A -> option B) (xs : list A) : option (list B) :=
  match xs with
  | [] => Some []
  | x :: xs' =>
      match f x with
      | Some y => match apply f xs' with
                  | Some ys => Some (y :: ys)
                  | None => None
                  end
      | None => None
      end
  end.

(** [df['Date'] = df['Date'].apply(lambda x: date.fromisoformat(x))] *)
Definition apply_Date {D D' S E} (f : D -> option D')
    (df : list (Row D S E)) : option (list (Row D' S E)) :=
  apply (fun r => match f (Date r) with
                  | Some d => Some (mkRow (Title r) (Description r) d
                                (Start r) (End_ r) (Status r) (Color r))
                  | None => None
                  end) df.

(** [df['Start'] = df['Start'].apply(lambda x: time.fromisoformat(x))] *)
Definition apply_Start {D S S' E} (f : S -> option S')
    (df : list (Row D S E)) : option (list (Row D S' E)) :=
  apply (fun r => match f (Start r) with
                  | Some t => Some (mkRow (Title r) (Description r)
                                (Date r) t (End_ r) (Status r) (Color r))
                  | None => None
                  end) df.

(** [df['End'] = df['End'].apply(lambda x: time.fromisoformat(x))] *)
Definition apply_End {D S E E'} (f : E -> option E')
    (df : list (Row D S E)) : option (list (Row D S E')) :=
  apply (fun r => match f (End_ r) with
                  | Some t => Some (mkRow (Title r) (Description r)
                                (Date r) (Start r) t (Status r) (Color r))
                  | None => None
                  end) df.

(** The body of the [try].  [st.rerun()] leaves by an exception that is
    not an [Exception], so the handler does not see it and the
    assignments stand; this end of the body is the report [Loaded]. *)
Definition load_data_body (json_data : SaveFile) : M load_report :=
  set_boss_xp (dict_get (f_boss_xp json_data) 0) ;;;
  set_active_boss (f_active_boss json_data) ;;;
  let tasks := dict_get (f_tasks json_data) [] in
  (if negb (empty tasks) then
     df1 <- lift (apply_Date Iso.date_fromisoformat tasks) ;;
     df2 <- lift (apply_Start Iso.time_fromisoformat df1) ;;
     df3 <- lift (apply_End Iso.time_fromisoformat df2) ;;
     set_tasks df3
   else
     set_tasks []) ;;;
  ret Loaded.

Definition load_data (json_data : SaveFile) : M load_report :=
  try_except (load_data_body json_data) (ret CorruptSaveFile).

(** [GameConfig.DEFAULT_TASK]; its date is [date.today()] of the run that
    evaluates the class body. *)
Definition DEFAULT_TASK (today : date) : Task :=
  mkRow "Install Streamlit" "pip install streamlit" today
        (mktime 9 0 0 0) (mktime 10 0 0 0) true "#33B679".

(** Each key that is missing gets its default; a key that is there is not
    touched.  The result has all three keys. *)
Definition initialize_session (today : date) (st : session_state) : session :=
  {| tasks := match ss_tasks st with
              | Some df => df
              | None => [DEFAULT_TASK today]
              end;
     boss_xp := match ss_boss_xp st with Some n => n | None => 0 end;
     active_boss := match ss_active_boss st with
                    | Some b => b
                    | None => None
                    end |}.

End StateRepository.

(* ================================================================== *)
(** * 8. Presentation layer: the boss arena *)
(* ================================================================== *)

(** How a piece of the script ends. *)
Inductive outcome (A : Type) : Type :=
| Returned (a : A)   (* it ran to its end *)
| Rerun              (* st.rerun(): the run stops and the script starts again *)
| Raised.            (* an exception that nothing handles *)

Arguments Returned {A} a.
Arguments Rerun {A}.
Arguments Raised {A}.

(** Script code: it assigns to the session state and ends in one of the
    three ways; what was assigned before a rerun or an exception stays. *)
Module ScriptM.

Definition Script (A : Type) : Type := session -> session * outcome A.

Definition ret {A} (a : A) : Script A := fun s => (s, Returned a).

Definition bind {A B} (m : Script A) (k : A -> Script B) : Script B :=
  fun s => match m s with
           | (s', Returned a) => k a s'
           | (s', Rerun) => (s', Rerun)
           | (s', Raised) => (s', Raised)
           end.

(** [st.rerun()] *)
Definition rerun {A} : Script A := fun s => (s, Rerun).

Definition get : Script session := fun s => (s, Returned s).

(** Code of the session monad, run inside a script. *)
Definition of_M {A} (m : SessionM.M A) : Script A :=
  fun s => match m s with
           | (s', Some a) => (s', Returned a)
           | (s', None) => (s', Raised)
           end.

(** A library call that raises instead of returning. *)
Definition of_option {A} (o : option A) : Script A :=
  fun s => match o with
           | Some a => (s, Returned a)
           | None => (s, Raised)
           end.

End ScriptM.

Notation "x <~ m ;; k" := (ScriptM.bind m (fun x => k))
  (at level 61, m at next level, right associativity).
Notation "m ;;~ k" := (ScriptM.bind m (fun _ => k))
  (at level 61, right associativity).

(** The fields of the "New Quest" form. *)
Record quest_form : Type := mkquest_form {
  q_title : string;
  q_desc : string;
  q_date : date;
  q_start : time;
  q_end : time;
  q_color : string
}.

(** What the widgets of the sidebar return in one run. *)
Record sidebar_widgets : Type := mksidebar_widgets {
  uploaded : option SaveFile;   (* st.file_uploader, read by json.load *)
  restore : bool;               (* st.button("Restore") *)
  new_quest : quest_form;
  add : bool;                   (* st.form_submit_button("Add") *)
  summon_name : string;         (* st.text_input("Name", ...) *)
  summon_hp : Z;                (* st.slider("HP", 50, 500, 100) *)
  summon : bool;                (* st.form_submit_button("Summon") *)
  flee : bool                   (* st.button("Flee Battle") *)
}.

(** What the widgets of a whole run return.  [today] is the value of
    [date.today()] during the run, in the class body of [GameConfig] as in
    [calculate_streak]. *)
Record widgets : Type := mkwidgets {
  today : date;                 (* date.today() *)
  sidebar : sidebar_widgets
}.

Module Streamlit.

(** [st.progress(value)] raises on a value outside [0, 1]. *)
Definition progress (value : Q) : option unit :=
  if Qle_bool 0 value && Qle_bool value 1 then Some tt else None.

End Streamlit.

Module UI.
Import SessionM.

(** [hp_pct = max(0, boss['CurrentHP'] / boss['MaxHP'])]; the division
    raises [ZeroDivisionError] on [MaxHP = 0].  The quotient is kept as the
    exact rational.  The float of the source compares with 0 and with 1 as
    the rational does when both HP values are below 2^53 in magnitude;
    beyond that the float can round a ratio just above 1 to 1.0, and a
    quotient too large for a float raises [OverflowError].  What is said of
    the bar below is said within that bound, or does not depend on it. *)
Definition hp_pct (boss : Boss) : option Q :=
  if MaxHP boss =? 0 then None
  else
    let q := (inject_Z (CurrentHP boss) / inject_Z (MaxHP boss))%Q in
    Some (if Qle_bool q 0 then 0%Q else q).

(** The [if boss['CurrentHP'] <= 0] block that ends
    [render_boss_arena]. *)
Definition defeat_check (boss : Boss) : M unit :=
  if CurrentHP boss <=? 0 then
    s <- get ;;
    set_boss_xp (boss_xp s + GameConfig.BOSS_BONUS_XP) ;;;
    set_active_boss None
  else ret tt.

Definition render_boss_arena : M unit :=
  s <- get ;;
  match active_boss s with
  | None => ret tt                                 (* if not boss: return *)
  | Some boss =>
      pct <- lift (hp_pct boss) ;;
      lift (Streamlit.progress pct) ;;;
      defeat_check boss
  end.

(** [render_hud]: of its widgets only [st.progress(stats['progress'])] can
    raise. *)
Definition render_hud (st : stats) (streak : Z) : option unit :=
  Streamlit.progress (progress st).

(** The row the "Add" button appends. *)
Definition new_row (q : quest_form) : Task :=
  mkRow (q_title q) (q_desc q) (q_date q) (q_start q) (q_end q)
        false (q_color q).

(** The boss the "Summon" button creates; the image is the dragon of the
    source, a string of four bytes. *)
Definition summoned (name : string) (hp : Z) : Boss :=
  {| Name := name; MaxHP := hp; CurrentHP := hp;
     Image := String (ascii_of_nat 240) (String (ascii_of_nat 159)
             (String (ascii_of_nat 144) (String (ascii_of_nat 137)
              EmptyString))) |}.

Definition render_sidebar (w : sidebar_widgets) : ScriptM.Script unit :=
  (* Save/Load *)
  (match uploaded w with
   | Some json_data =>
       if restore w then
         r <~ ScriptM.of_M (StateRepository.load_data json_data) ;;
         match r with
         | Loaded => ScriptM.rerun
         | CorruptSaveFile => ScriptM.ret tt
         end
       else ScriptM.ret tt
   | None => ScriptM.ret tt
   end) ;;~
  (* Add Task Form *)
  (if add w then
     s <~ ScriptM.get ;;
     ScriptM.of_M (set_tasks (tasks s ++ [new_row (new_quest w)]))
   else ScriptM.ret tt) ;;~
  (* Boss Form *)
  s <~ ScriptM.get ;;
  match active_boss s with
  | None =>
      if summon w then
        ScriptM.of_M (set_active_boss
                        (Some (summoned (summon_name w) (summon_hp w)))) ;;~
        ScriptM.rerun
      else ScriptM.ret tt
  | Some _ =>
      if flee w then
        ScriptM.of_M (set_active_boss None) ;;~ ScriptM.rerun
      else ScriptM.ret tt
  end.

(** [render_task_editor].  [st.column_config] has no [ColorPickerColumn]:
    building [col_config] raises [AttributeError] before the editor is
    drawn, in every run. *)
Definition render_task_editor : ScriptM.Script DataFrame :=
  ScriptM.of_M raise.

End UI.

(* ================================================================== *)
(** * 8b. Main controller *)
(* ================================================================== *)

(** The [if not new_df.equals(st.session_state.tasks)] block of [main]. *)
Definition update_tasks (new_df : DataFrame) : ScriptM.Script unit :=
  s <~ ScriptM.get ;;
  if negb (Pandas.equals new_df (tasks s)) then
    let old_completed := Pandas.sum (map Status (tasks s)) in
    let new_completed := Pandas.sum (map Status new_df) in
    ScriptM.of_M (SessionM.set_tasks new_df) ;;~
    (if new_completed >? old_completed then
       let diff := new_completed - old_completed in
       s' <~ ScriptM.get ;;
       match active_boss s' with
       | Some b =>
           let (boss, dmg) := BossManager.deal_damage b diff in
           ScriptM.of_M (SessionM.set_active_boss (Some boss))
       | None => ScriptM.ret tt
       end
     else ScriptM.ret tt) ;;~
    ScriptM.rerun
  else ScriptM.ret tt.

(** [main] after [initialize_session].  [hp] is the class of
    [boss['CurrentHP']] in the session state the run finds.  The first
    statement of [render_sidebar] is the call of [export_data] for the
    download button; it stands here, in front of the sidebar, because it
    needs that class. *)
Definition main_script (hp : int_class) (w : widgets) : ScriptM.Script unit :=
  s0 <~ ScriptM.get ;;
  ScriptM.of_option (StateRepository.export_data hp s0) ;;~
  UI.render_sidebar (sidebar w) ;;~
  s <~ ScriptM.get ;;
  stats <~ ScriptM.of_option
             (GamificationService.calculate_stats (tasks s) (boss_xp s)) ;;
  let streak := GamificationService.calculate_streak (today w) (tasks s) in
  ScriptM.of_option (UI.render_hud stats streak) ;;~
  ScriptM.of_M UI.render_boss_arena ;;~
  new_df <~ UI.render_task_editor ;;
  update_tasks new_df.

Definition main (hp : int_class) (w : widgets) (st : session_state)
  : session * outcome unit :=
  main_script hp w (StateRepository.initialize_session (today w) st).

(* ================================================================== *)
(** * 9. Vocabulary of the properties *)
(* ================================================================== *)

Section Vocabulary.
Import Datetime Iso GamificationService.

(** The extra day of a leap year. *)
Definition leap_day (y : Z) : Z := if is_leap y then 1 else 0.

(** [d] is the date of a completed task of [df]. *)
Definition completed_on (df : DataFrame) (d : date) : Prop :=
  exists t, In t df /\ Status t = true /\ Date t = d.

(** [d] is the most recent completion date of [df], in the order of
    dates. *)
Definition most_recent (df : DataFrame) (d : date) : Prop :=
  completed_on df d
  /\ forall d', completed_on df d' -> date_leb d' d = true.

(** Descending, in the order of dates. *)
Definition descending : list date -> Prop :=
  StronglySorted (fun a b => date_ltb b a = true).

(** Starting below [cursor], every date of the list is exactly one day
    before the one in front of it. *)
Inductive consecutive : date -> list date -> Prop :=
| consecutive_nil : forall cursor, consecutive cursor []
| consecutive_cons : forall cursor d l,
    days_between cursor d = 1 -> consecutive d l ->
    consecutive cursor (d :: l).

(** The list is over, or its first date is not the day before [cursor]:
    the walk stops at [cursor]. *)
Definition gap_after (cursor : date) (tail : list date) : Prop :=
  match tail with
  | [] => True
  | d :: _ => days_between cursor d <> 1
  end.

(** The state after a defeat: the bonus is added and no boss is active. *)
Definition defeated (s : session) : session :=
  {| tasks := tasks s; boss_xp := boss_xp s + 500; active_boss := None |}.

(** The health bar cannot be drawn: [MaxHP] is 0, or the boss has more HP
    than [MaxHP] (on either side of 0). *)
Definition no_bar (boss : Boss) : Prop :=
  MaxHP boss = 0
  \/ 0 < MaxHP boss < CurrentHP boss
  \/ CurrentHP boss < MaxHP boss < 0.


(** No button of the sidebar was pressed in this run. *)
Definition quiet (w : sidebar_widgets) : Prop :=
  restore w = false /\ add w = false /\ summon w = false /\ flee w = false.

(** The cells of a task hold real [date] and [time] objects. *)
Definition well_formed_task (t : Task) : bool :=
  valid_date (Date t) && valid_time (Start t) && valid_time (End_ t).

Definition well_formed (s : session) : bool :=
  forallb well_formed_task (tasks s).

(** One of the three date and time cells of the record does not parse. *)
Definition malformed (r : TaskRecord) : Prop :=
  date_fromisoformat (Date r) = None
  \/ time_fromisoformat (Start r) = None
  \/ time_fromisoformat (End_ r) = None.

(** The task table while [load_data] converts it: after the [Date]
    column, and after the [Start] column. *)
Definition dated (t : Task) : Row date string string :=
  mkRow (Title t) (Description t) (Date t)
        (time_isoformat (Start t)) (time_isoformat (End_ t))
        (Status t) (Color t).

Definition started (t : Task) : Row date time string :=
  mkRow (Title t) (Description t) (Date t) (Start t)
        (time_isoformat (End_ t)) (Status t) (Color t).

(** The three column conversions of [load_data], one after the other. *)
Definition parse_table (rows : list TaskRecord) : option DataFrame :=
  match StateRepository.apply_Date date_fromisoformat rows with
  | Some df1 =>
      match StateRepository.apply_Start time_fromisoformat df1 with
      | Some df2 => StateRepository.apply_End time_fromisoformat df2
      | None => None
      end
  | None => None
  end.

(** What a failed load leaves behind: the tasks of the prior session, and
    the bonus XP and boss of the file. *)
Definition half_loaded (json_data : SaveFile) (prior : session) : session :=
  {| tasks := tasks prior;
     boss_xp := dict_get (f_boss_xp json_data) 0;
     active_boss := f_active_boss json_data |}.

(** A session in the middle of a boss fight, and a save file of a fresh
    game whose only task carries a date that is not ISO 8601. *)
Definition fighting : session :=
  mksession
    [mkRow "Install Streamlit" "pip install streamlit" (mkdate 2026 11 4)
       (mktime 9 0 0 0) (mktime 10 0 0 0) true "#33B679"]
    500 (Some (mkBoss "Entropy Dragon" 100 40 "dragon")).

Definition bad_date_file : SaveFile :=
  mkSaveFile
    (Some [mkRow "Read the docs" "" "04/11/2026" "09:00:00" "10:00:00"
             false "#3788d8"])
    (Some 0) None.




End Vocabulary.

(* ================================================================== *)
(** * 10. Experience, level and progress *)
(* ================================================================== *)

Module NumpyFacts.
Import Numpy.

Lemma fits_int64_iff (z : Z) :
  fits_int64 z = true
  <-> -9223372036854775808 <= z <= 9223372036854775807.
Proof. unfold fits_int64. rewrite andb_true_iff, !Z.leb_le. tauto. Qed.

Lemma wrap_int64_range (z : Z) :
  -9223372036854775808 <= wrap_int64 z <= 9223372036854775807.
Proof. unfold wrap_int64. Z.div_mod_to_equations. lia. Qed.

Lemma wrap_int64_id (z : Z) :
  -9223372036854775808 <= z <= 9223372036854775807 -> wrap_int64 z = z.
Proof. unfold wrap_int64. intros H. Z.div_mod_to_equations. lia. Qed.

Lemma wrap_int64_add (a b : Z) :
  wrap_int64 (wrap_int64 a + b) = wrap_int64 (a + b).
Proof. unfold wrap_int64. Z.div_mod_to_equations. lia. Qed.

End NumpyFacts.

Section Stats.
Import GamificationService Numpy NumpyFacts.

(** The sum of the [Status] column counts the completed tasks. *)
Lemma sum_Status_count (df : DataFrame) :
  Pandas.sum (map Status df) = Z.of_nat (List.length (filter Status df)).
Proof.
  induction df as [|t df IH]; [reflexivity|].
  cbn [map Pandas.sum fold_right filter].
  change (fold_right _ 0 (map Status df)) with (Pandas.sum (map Status df)).
  rewrite IH. destruct (Status t); cbn [List.length]; lia.
Qed.

(** What [calculate_stats] returns, when it returns: on the empty table
    the bonus as it is, on any other table the wrapped sum; the level and
    the progress are those of that XP. *)
Lemma calculate_stats_Some (df : DataFrame) (bonus : Z) (st : stats) :
  calculate_stats df bonus = Some st ->
  level st = xp st / 500 + 1
  /\ (progress st == (xp st mod 500) # 500)%Q
  /\ (df = [] -> xp st = bonus)
  /\ (df <> [] ->
      fits_int64 bonus = true
      /\ xp st = wrap_int64
                   (Z.of_nat (List.length (filter Status df)) * 50 + bonus)).
Proof.
  unfold calculate_stats, mul, add, GameConfig.XP_PER_TASK,
    GameConfig.LEVEL_BASE_XP.
  destruct df as [|t df].
  - cbn [empty negb]. intros [= <-]. cbn [xp level progress].
    split; [reflexivity|]. split; [symmetry; apply Qmake_Qdiv|].
    split; [intros _; lia|intros H; contradiction H; reflexivity].
  - cbn [empty negb]. set (l := t :: df).
    change (fits_int64 50) with true. cbv iota.
    destruct (fits_int64 bonus); [|discriminate].
    intros [= <-]. cbn [xp level progress].
    split; [reflexivity|]. split; [symmetry; apply Qmake_Qdiv|].
    split; [discriminate|]. intros _. split; [reflexivity|].
    rewrite wrap_int64_add, <- (sum_Status_count l). reflexivity.
Qed.

(** [calculate_stats] returns on the empty table, and on any table when
    the bonus is an [int64]. *)
Lemma calculate_stats_returns (df : DataFrame) (bonus : Z) :
  df = [] \/ fits_int64 bonus = true ->
  exists st, calculate_stats df bonus = Some st.
Proof.
  unfold calculate_stats, mul, add, GameConfig.XP_PER_TASK.
  destruct df as [|t df]; cbn [empty negb]; [eexists; reflexivity|].
  intros [H|H]; [discriminate|].
  change (fits_int64 50) with true. cbv iota. rewrite H.
  eexists; reflexivity.
Qed.

Lemma calculate_stats_None (df : DataFrame) (bonus : Z) :
  calculate_stats df bonus = None <->
  df <> [] /\ fits_int64 bonus = false.
Proof.
  split.
  - intros E. destruct df as [|t df].
    + discriminate E.
    + split; [discriminate|].
      destruct (fits_int64 bonus) eqn:F; [|reflexivity].
      destruct (calculate_stats_returns (t :: df) bonus (or_intror F))
        as (st & Hst). congruence.
  - intros [Hne F].
    destruct (calculate_stats df bonus) as [st|] eqn:E; [|reflexivity].
    destruct (calculate_stats_Some df bonus st E) as (_ & _ & _ & H).
    destruct (H Hne) as [F' _]. congruence.
Qed.

(** Without overflow the XP is the plain sum. *)
Lemma calculate_stats_exact (df : DataFrame) (bonus : Z) :
  -9223372036854775808 <= bonus ->
  Z.of_nat (List.length (filter Status df)) * 50 + bonus
    <= 9223372036854775807 ->
  exists st, calculate_stats df bonus = Some st
    /\ xp st = Z.of_nat (List.length (filter Status df)) * 50 + bonus.
Proof.
  intros Hlo Hhi.
  assert (F : fits_int64 bonus = true) by (apply fits_int64_iff; lia).
  destruct (calculate_stats_returns df bonus (or_intror F)) as (st & E).
  exists st. split; [exact E|].
  destruct (calculate_stats_Some df bonus st E) as (_ & _ & H0 & H1).
  destruct df as [|t df].
  - rewrite (H0 eq_refl). cbn. lia.
  - destruct H1 as [_ ->]; [discriminate|]. apply wrap_int64_id. lia.
Qed.

Lemma progress_in_unit (df : DataFrame) (bonus : Z) (st : stats) :
  calculate_stats df bonus = Some st ->
  (0 <= progress st)%Q /\ (progress st < 1)%Q.
Proof.
  intros E. destruct (calculate_stats_Some df bonus st E) as (_ & Hp & _).
  pose proof (Z.mod_pos_bound (xp st) 500 eq_refl).
  split; rewrite Hp; [unfold Qle|unfold Qlt]; cbn [Qnum Qden]; lia.
Qed.







End Stats.

(* ================================================================== *)
(** * 11. Boss combat *)
(* ================================================================== *)

Section BossCombat.
Import BossManager UI SessionM.

(** C3.  [deal_damage] returns the damage [hit_count * 10] and the boss
    with that damage subtracted from [CurrentHP], without clamping: zero
    hits change nothing, two hits on 100 HP leave 80, and two hits on 15 HP
    leave -5. *)
Theorem deal_damage_spec (boss : Boss) (hit_count : Z) :
  snd (deal_damage boss hit_count) = hit_count * 10
  /\ CurrentHP (fst (deal_damage boss hit_count))
     = CurrentHP boss - snd (deal_damage boss hit_count)
  /\ deal_damage boss 0 = (boss, 0)
  /\ deal_damage (mkBoss (Name boss) (MaxHP boss) 100 (Image boss)) 2
     = (mkBoss (Name boss) (MaxHP boss) 80 (Image boss), 20)
  /\ deal_damage (mkBoss (Name boss) (MaxHP boss) 15 (Image boss)) 2
     = (mkBoss (Name boss) (MaxHP boss) (-5) (Image boss), 20).
Proof.
  repeat split.
  destruct boss as [n m c i]. unfold deal_damage. cbn.
  f_equal. f_equal. lia.
Qed.

(** C10.  [deal_damage] changes the [CurrentHP] field only. *)
Theorem deal_damage_frame (boss : Boss) (hit_count : Z) :
  let boss' := fst (deal_damage boss hit_count) in
  Name boss' = Name boss /\ MaxHP boss' = MaxHP boss
  /\ Image boss' = Image boss.
Proof. repeat split. Qed.

(** C4.  The defeat check that ends [render_boss_arena]: at
    [CurrentHP <= 0] it adds exactly 500 to the bonus XP and clears the
    active boss (the boss is dropped, its HP is not reset); at
    [CurrentHP > 0] it changes neither the boss nor the bonus XP. *)
Theorem defeat_detection (s : session) (boss : Boss) :
  (CurrentHP boss <= 0 -> defeat_check boss s = (defeated s, Some tt))
  /\ (0 < CurrentHP boss -> defeat_check boss s = (s, Some tt)).
Proof.
  split.
  - intros H. unfold defeat_check.
    destruct (Z.leb_spec (CurrentHP boss) 0); [reflexivity|lia].
  - intros H. unfold defeat_check.
    destruct (Z.leb_spec (CurrentHP boss) 0); [lia|reflexivity].
Qed.

Lemma defeat_detection_witness :
  let s := mksession [] 0 (Some (mkBoss "Entropy Dragon" 100 (-5) "dragon")) in
  defeat_check (mkBoss "Entropy Dragon" 100 (-5) "dragon") s
  = (mksession [] 500 None, Some tt)
  /\ defeat_check (mkBoss "Entropy Dragon" 100 80 "dragon") s
     = (s, Some tt).
Proof.
  intros s. split.
  - destruct (defeat_detection s (mkBoss "Entropy Dragon" 100 (-5) "dragon"))
      as (Hdef & _).
    rewrite Hdef; [reflexivity|discriminate].
  - destruct (defeat_detection s (mkBoss "Entropy Dragon" 100 80 "dragon"))
      as (_ & Hlive).
    apply Hlive. reflexivity.
Defined.

End BossCombat.

(* ================================================================== *)
(** * 12. The order of dates and the sorted list of completion dates *)
(* ================================================================== *)

Module DateOrder.
Import Datetime.

Ltac order_cases :=
  unfold date_eqb, date_ltb, date_leb, date_compare;
  repeat match goal with
    | d : date |- _ => destruct d
    end;
  cbn [year month day];
  repeat match goal with
    | |- context [?x ?= ?y] => destruct (Z.compare_spec x y)
    | H : context [?x ?= ?y] |- _ => destruct (Z.compare_spec x y)
    end;
  subst; try reflexivity; try discriminate; try lia.

Lemma date_eqb_eq (a b : date) : date_eqb a b = true <-> a = b.
Proof.
  split.
  - order_cases.
  - intros ->. order_cases.
Qed.

Lemma date_ltb_irrefl (a : date) : date_ltb a a = false.
Proof. order_cases. Qed.

Lemma date_ltb_trans (a b c : date) :
  date_ltb a b = true -> date_ltb b c = true -> date_ltb a c = true.
Proof. order_cases. Qed.

Lemma date_leb_refl (a : date) : date_leb a a = true.
Proof. order_cases. Qed.

Lemma date_leb_trans (a b c : date) :
  date_leb a b = true -> date_leb b c = true -> date_leb a c = true.
Proof. order_cases. Qed.

Lemma date_leb_antisym (a b : date) :
  date_leb a b = true -> date_leb b a = true -> a = b.
Proof. order_cases. Qed.

Lemma date_ltb_leb (a b : date) :
  date_ltb a b = true -> date_leb a b = true.
Proof. order_cases. Qed.

Lemma date_ltb_false_leb (a b : date) :
  date_ltb a b = false -> date_leb b a = true.
Proof. order_cases. Qed.

(** *** The order of dates is the order of their day numbers *)

Lemma is_leap_cases (y : Z) :
  (is_leap y = true /\ y mod 4 = 0 /\ (y mod 100 <> 0 \/ y mod 400 = 0))
  \/ (is_leap y = false /\ (y mod 4 <> 0 \/ (y mod 100 = 0 /\ y mod 400 <> 0))).
Proof.
  unfold is_leap.
  destruct (Z.eqb_spec (y mod 4) 0), (Z.eqb_spec (y mod 100) 0),
    (Z.eqb_spec (y mod 400) 0); cbn; tauto.
Qed.

Lemma days_before_year_succ (y : Z) :
  days_before_year (y + 1) = days_before_year y + 365 + leap_day y.
Proof.
  unfold days_before_year, leap_day. cbv zeta.
  replace (y + 1 - 1) with y by lia.
  destruct (is_leap_cases y) as [(-> & H4 & H)|(-> & H)];
    Z.div_mod_to_equations; lia.
Qed.

Lemma days_before_year_mono (y y' : Z) :
  y <= y' -> days_before_year y <= days_before_year y'.
Proof.
  unfold days_before_year. cbv zeta. intros H.
  Z.div_mod_to_equations. lia.
Qed.

Lemma valid_date_bounds (d : date) :
  valid_date d = true ->
  1 <= month d <= 12 /\ 1 <= day d <= days_in_month (year d) (month d).
Proof.
  unfold valid_date. rewrite !andb_true_iff, !Z.leb_le. lia.
Qed.

Ltac month_cases m :=
  assert (m = 1 \/ m = 2 \/ m = 3 \/ m = 4 \/ m = 5 \/ m = 6 \/ m = 7
          \/ m = 8 \/ m = 9 \/ m = 10 \/ m = 11 \/ m = 12) as Hcases by lia;
  repeat (destruct Hcases as [->|Hcases]); [..|subst m].

(** The last day of a month is before the first day of any later month,
    and the last day of December is the last day of the year. *)
Lemma month_end (y m : Z) :
  1 <= m <= 12 ->
  days_before_month y m + days_in_month y m <= 365 + leap_day y
  /\ 0 <= days_before_month y m
  /\ forall m', m < m' <= 12 ->
       days_before_month y m + days_in_month y m <= days_before_month y m'.
Proof.
  intros Hm. unfold days_before_month, days_in_month, leap_day.
  month_cases m; destruct (is_leap y); cbn;
    (split; [lia|split; [lia|]]); intros m' Hm';
    month_cases m'; cbn; lia.
Qed.

Lemma toordinal_lt (a b : date) :
  valid_date a = true -> valid_date b = true ->
  date_ltb a b = true -> toordinal a < toordinal b.
Proof.
  intros Va Vb.
  destruct (valid_date_bounds a Va) as [Hma Hda].
  destruct (valid_date_bounds b Vb) as [Hmb Hdb].
  destruct (month_end (year a) (month a) Hma) as (Hye & H0a & Hnext).
  destruct (month_end (year b) (month b) Hmb) as (_ & H0b & _).
  unfold toordinal, ymd2ord, date_ltb, date_compare.
  destruct (Z.compare_spec (year a) (year b)) as [Ey|Ly|Gy];
    try discriminate.
  - destruct (Z.compare_spec (month a) (month b)) as [Em|Lm|Gm];
      try discriminate.
    + destruct (Z.compare_spec (day a) (day b)); try discriminate.
      intros _. rewrite Ey, Em. lia.
    + intros _. rewrite <- Ey. specialize (Hnext (month b)). lia.
  - intros _.
    pose proof (days_before_year_succ (year a)).
    pose proof (days_before_year_mono (year a + 1) (year b)). lia.
Qed.

(** On dates, [<] agrees with the sign of the difference in days. *)
Lemma date_ltb_days (a b : date) :
  valid_date a = true -> valid_date b = true ->
  (date_ltb a b = true <-> days_between a b < 0).
Proof.
  intros Va Vb. unfold days_between. split.
  - intros H. pose proof (toordinal_lt a b Va Vb H). lia.
  - intros H. destruct (date_ltb a b) eqn:E; [reflexivity|].
    apply date_ltb_false_leb in E.
    destruct (date_ltb b a) eqn:E'.
    + pose proof (toordinal_lt b a Vb Va E'). lia.
    + apply date_ltb_false_leb in E'.
      rewrite (date_leb_antisym a b E' E) in H. lia.
Qed.

End DateOrder.

Section CompletionDates.
Import Datetime DateOrder Pandas Builtins GamificationService.

Lemma existsb_date_eqb (d : date) (seen : list date) :
  existsb (date_eqb d) seen = true <-> In d seen.
Proof.
  rewrite existsb_exists. split.
  - intros (x & Hx & E). apply date_eqb_eq in E. now subst.
  - intros H. exists d. split; [exact H|]. now apply date_eqb_eq.
Qed.

Lemma unique_from_In (l seen : list date) (x : date) :
  In x (unique_from seen l) <-> In x l /\ ~ In x seen.
Proof.
  revert seen. induction l as [|d l IH]; intros seen; cbn [unique_from].
  - cbn. tauto.
  - destruct (existsb (date_eqb d) seen) eqn:E.
    + apply existsb_date_eqb in E. rewrite IH. cbn [In].
      split; [tauto|]. intros [[->|H] Hn]; tauto.
    + assert (~ In d seen) as Hd
        by (intros H; apply existsb_date_eqb in H; congruence).
      cbn [In]. rewrite IH. cbn [In].
      split.
      * intros [->|[H Hn]]; [tauto|]. split; [tauto|]. tauto.
      * intros [[->|H] Hn]; [tauto|].
        destruct (date_eqb d x) eqn:Ex.
        -- apply date_eqb_eq in Ex. tauto.
        -- right. split; [exact H|]. intros [->|Hs]; [|tauto].
           rewrite (proj2 (date_eqb_eq x x) eq_refl) in Ex. discriminate.
Qed.

Lemma unique_from_NoDup (l seen : list date) : NoDup (unique_from seen l).
Proof.
  revert seen. induction l as [|d l IH]; intros seen; cbn [unique_from].
  - constructor.
  - destruct (existsb (date_eqb d) seen); [apply IH|].
    constructor; [|apply IH].
    rewrite unique_from_In. cbn [In]. tauto.
Qed.

Lemma unique_In (l : list date) (x : date) : In x (unique l) <-> In x l.
Proof. unfold unique. rewrite unique_from_In. cbn. tauto. Qed.

Lemma unique_NoDup (l : list date) : NoDup (unique l).
Proof. apply unique_from_NoDup. Qed.

Lemma insert_desc_In (d x : date) (l : list date) :
  In x (insert_desc d l) <-> x = d \/ In x l.
Proof.
  induction l as [|y l IH]; cbn [insert_desc].
  - cbn. intuition congruence.
  - destruct (date_ltb d y); cbn [In]; [rewrite IH|]; intuition congruence.
Qed.

Lemma insert_desc_Permutation (d : date) (l : list date) :
  Permutation (d :: l) (insert_desc d l).
Proof.
  induction l as [|y l IH]; cbn [insert_desc]; [reflexivity|].
  destruct (date_ltb d y); [|reflexivity].
  rewrite perm_swap. now apply perm_skip.
Qed.

Lemma sorted_reverse_Permutation (l : list date) :
  Permutation l (sorted_reverse l).
Proof.
  induction l as [|d l IH]; [reflexivity|].
  cbn [sorted_reverse fold_right].
  rewrite <- insert_desc_Permutation. now apply perm_skip.
Qed.

Lemma sorted_reverse_In (l : list date) (x : date) :
  In x (sorted_reverse l) <-> In x l.
Proof.
  split; apply Permutation_in;
    [symmetry|]; apply sorted_reverse_Permutation.
Qed.

Lemma insert_desc_descending (d : date) (l : list date) :
  ~ In d l -> descending l -> descending (insert_desc d l).
Proof.
  unfold descending.
  induction l as [|y l IH]; intros Hn Hs; cbn [insert_desc].
  - constructor; [constructor|constructor].
  - apply StronglySorted_inv in Hs. destruct Hs as [Hs Hy].
    destruct (date_ltb d y) eqn:E.
    + constructor.
      * apply IH; [cbn in Hn; tauto|exact Hs].
      * rewrite Forall_forall in *. intros x Hx.
        apply insert_desc_In in Hx. destruct Hx as [->|Hx]; auto.
    + assert (date_ltb y d = true) as Hyd.
      { apply date_ltb_false_leb in E.
        destruct (date_ltb y d) eqn:E'; [reflexivity|].
        apply date_ltb_false_leb in E'.
        exfalso. apply Hn. left. now apply date_leb_antisym. }
      constructor.
      * constructor; assumption.
      * constructor; [exact Hyd|].
        rewrite Forall_forall in *. intros x Hx.
        eapply date_ltb_trans; [apply Hy, Hx|exact Hyd].
Qed.

Lemma sorted_reverse_descending (l : list date) :
  NoDup l -> descending (sorted_reverse l).
Proof.
  induction 1 as [|d l Hn Hl IH]; cbn [sorted_reverse fold_right].
  - constructor.
  - apply insert_desc_descending; [|exact IH].
    fold (sorted_reverse l). now rewrite sorted_reverse_In.
Qed.

Lemma completed_In (df : DataFrame) (t : Task) :
  In t (completed df) <-> In t df /\ Status t = true.
Proof.
  unfold completed. rewrite filter_In.
  destruct (Status t); cbn; intuition congruence.
Qed.

(** [dates df] holds exactly the dates of the completed tasks, each once,
    the most recent first. *)
Lemma dates_In (df : DataFrame) (d : date) :
  In d (dates df) <-> completed_on df d.
Proof.
  unfold dates, completed_on.
  rewrite sorted_reverse_In, unique_In, in_map_iff.
  split.
  - intros (t & E & Ht). apply completed_In in Ht. exists t. tauto.
  - intros (t & Ht & Hs & E). exists t. split; [exact E|].
    apply completed_In. tauto.
Qed.

Lemma dates_descending (df : DataFrame) : descending (dates df).
Proof. apply sorted_reverse_descending, unique_NoDup. Qed.

Lemma dates_head_most_recent (df : DataFrame) (d0 : date) (rest : list date) :
  dates df = d0 :: rest -> most_recent df d0.
Proof.
  intros E. split.
  - apply dates_In. rewrite E. now left.
  - intros d' Hd'. apply dates_In in Hd'. rewrite E in Hd'.
    destruct Hd' as [<-|Hin]; [apply date_leb_refl|].
    pose proof (dates_descending df) as Hs. rewrite E in Hs.
    apply StronglySorted_inv in Hs. destruct Hs as [_ Hall].
    rewrite Forall_forall in Hall. now apply date_ltb_leb, Hall.
Qed.

Lemma most_recent_unique (df : DataFrame) (d d' : date) :
  most_recent df d -> most_recent df d' -> d = d'.
Proof.
  intros [Hc Hmax] [Hc' Hmax'].
  apply date_leb_antisym; [apply Hmax', Hc|apply Hmax, Hc'].
Qed.

Lemma most_recent_dates (df : DataFrame) (d : date) :
  most_recent df d -> exists rest, dates df = d :: rest.
Proof.
  intros Hm. destruct (dates df) as [|d0 rest] eqn:E.
  - destruct Hm as [Hc _]. apply dates_In in Hc. rewrite E in Hc.
    contradiction.
  - exists rest. f_equal.
    eapply most_recent_unique; [|exact Hm].
    eapply dates_head_most_recent; exact E.
Qed.

Lemma completed_nonempty (df : DataFrame) (d : date) :
  completed_on df d -> empty df = false /\ empty (completed df) = false.
Proof.
  intros (t & Ht & Hs & _). split.
  - destruct df; [contradiction|reflexivity].
  - assert (In t (completed df)) as H by (apply completed_In; tauto).
    destruct (completed df); [contradiction|reflexivity].
Qed.

(** Two descending lists with the same elements are the same list. *)
Lemma descending_ext (l l' : list date) :
  descending l -> descending l' ->
  (forall x, In x l <-> In x l') -> l = l'.
Proof.
  unfold descending. intros Hl. revert l'.
  induction Hl as [|a l Hl IH Ha]; intros l' Hl' Hin.
  - destruct l' as [|b l']; [reflexivity|].
    destruct (proj2 (Hin b) (or_introl eq_refl)).
  - destruct Hl' as [|b l' Hl' Hb].
    + destruct (proj1 (Hin a) (or_introl eq_refl)).
    + rewrite Forall_forall in Ha, Hb.
      assert (a = b) as ->.
      { destruct (proj1 (Hin a) (or_introl eq_refl)) as [E|Hal'];
          [now symmetry|].
        destruct (proj2 (Hin b) (or_introl eq_refl)) as [E|Hbl];
          [exact E|].
        pose proof (Hb a Hal') as H1. pose proof (Ha b Hbl) as H2.
        pose proof (date_ltb_trans _ _ _ H1 H2) as H3.
        rewrite date_ltb_irrefl in H3. discriminate. }
      f_equal. apply IH; [exact Hl'|].
      intros x. split; intros Hx.
      * destruct (proj1 (Hin x) (or_intror Hx)) as [<-|H]; [|exact H].
        pose proof (Ha _ Hx) as H. rewrite date_ltb_irrefl in H.
        discriminate.
      * destruct (proj2 (Hin x) (or_intror Hx)) as [<-|H]; [|exact H].
        pose proof (Hb _ Hx) as H. rewrite date_ltb_irrefl in H.
        discriminate.
Qed.

(** The descending list of the dates with a completed task is the list
    [dates]. *)
Lemma dates_spec (df : DataFrame) (l : list date) :
  descending l -> (forall d, In d l <-> completed_on df d) -> dates df = l.
Proof.
  intros Hl Hin. apply descending_ext; [apply dates_descending|exact Hl|].
  intros x. rewrite dates_In. symmetry. apply Hin.
Qed.

End CompletionDates.

(* ================================================================== *)
(** * 13. The streak *)
(* ================================================================== *)

Section Streaks.
Import Datetime DateOrder GamificationService.

Lemma last_cons (l : list date) (r a b : date) :
  last (r :: l) a = last (r :: l) b.
Proof.
  revert r. induction l as [|x l IH]; intros r; [reflexivity|].
  change (last (x :: l) a = last (x :: l) b). apply IH.
Qed.

Lemma walk_run (rest : list date) (cursor : date) (streak : Z) :
  exists run tail,
    rest = run ++ tail
    /\ consecutive cursor run
    /\ gap_after (last run cursor) tail
    /\ walk cursor rest streak = streak + Z.of_nat (List.length run).
Proof.
  revert cursor streak.
  induction rest as [|d rest IH]; intros cursor streak.
  - exists [], []. cbn. repeat split; [constructor|lia].
  - cbn [walk].
    destruct (Z.eqb_spec (days_between cursor d) 1) as [E|N].
    + destruct (IH d (streak + 1)) as (run & tail & -> & Hc & Hg & Hw).
      exists (d :: run), tail.
      split; [reflexivity|]. split; [now constructor|]. split.
      * destruct run as [|r run]; [exact Hg|].
        change (gap_after (last (r :: run) cursor) tail).
        now rewrite (last_cons run r cursor d).
      * rewrite Hw. cbn [List.length]. lia.
    + exists [], (d :: rest). cbn.
      repeat split; [constructor|exact N|lia].
Qed.

Lemma consecutive_prefix_le (run run' tail tail' : list date)
    (cursor : date) :
  run ++ tail = run' ++ tail' ->
  consecutive cursor run -> gap_after (last run cursor) tail ->
  consecutive cursor run' ->
  (List.length run' <= List.length run)%nat.
Proof.
  intros E Hc. revert run' tail tail' E.
  induction Hc as [cursor|cursor d l Hd Hc IH];
    intros run' tail tail' E Hg Hc'.
  - inversion Hc' as [|c d' l' Hd' Hl']; subst; [cbn; lia|].
    cbn in E, Hg. subst tail. cbn in Hg. contradiction.
  - inversion Hc' as [|c d' l' Hd' Hl']; subst; [cbn; lia|].
    cbn in E. injection E as Ed E. subst d'.
    cbn [List.length]. apply le_n_S.
    apply (IH l' tail tail' E); [|exact Hl'].
    destruct l as [|x l]; [exact Hg|].
    change (gap_after (last (x :: l) cursor) tail) in Hg.
    now rewrite (last_cons l x cursor d) in Hg.
Qed.

Lemma walk_ge (rest : list date) (cursor : date) (streak : Z) :
  streak <= walk cursor rest streak.
Proof.
  destruct (walk_run rest cursor streak) as (run & _ & _ & _ & _ & ->).
  lia.
Qed.

(** Once the first date is within a day of [today], the result is the
    walk from it. *)
Lemma calculate_streak_alive (today : date) (df : DataFrame)
    (d0 : date) (rest : list date) :
  dates df = d0 :: rest -> days_between today d0 <= 1 ->
  calculate_streak today df = walk d0 rest 1.
Proof.
  intros E Hd.
  assert (completed_on df d0) as Hc
    by (apply dates_In; rewrite E; now left).
  destruct (completed_nonempty df d0 Hc) as [E1 E2].
  unfold calculate_streak. rewrite E1, E2, E.
  destruct (Z.gtb_spec (days_between today d0) 1); [lia|reflexivity].
Qed.

Lemma calculate_streak_broken (today : date) (df : DataFrame)
    (d0 : date) (rest : list date) :
  dates df = d0 :: rest -> 1 < days_between today d0 ->
  calculate_streak today df = 0.
Proof.
  intros E Hd.
  assert (completed_on df d0) as Hc
    by (apply dates_In; rewrite E; now left).
  destruct (completed_nonempty df d0 Hc) as [E1 E2].
  unfold calculate_streak. rewrite E1, E2, E.
  destruct (Z.gtb_spec (days_between today d0) 1); [reflexivity|lia].
Qed.

Lemma calculate_streak_none (today : date) (df : DataFrame) :
  dates df = [] -> calculate_streak today df = 0.
Proof.
  intros E. unfold calculate_streak. rewrite E.
  destruct (empty df); [reflexivity|].
  destruct (empty (completed df)); reflexivity.
Qed.

(** C2.  Let [d0 :: rest] be the distinct dates of the completed tasks,
    sorted descending.  When [d0] is today or yesterday, [calculate_streak]
    returns 1 plus the length of the longest prefix of [rest] in which each
    date is exactly one day before the one in front of it, starting below
    [d0].  The walk stops at the first gap and is not resumed: today and a
    date three days before it give 1. *)
Theorem calculate_streak_walk (today : date) (df : DataFrame)
    (d0 : date) (rest : list date) :
  descending (d0 :: rest) ->
  (forall d, In d (d0 :: rest) <-> completed_on df d) ->
  days_between today d0 = 0 \/ days_between today d0 = 1 ->
  (exists run tail,
      rest = run ++ tail
      /\ consecutive d0 run
      /\ gap_after (last run d0) tail
      /\ (forall run' tail',
            rest = run' ++ tail' -> consecutive d0 run' ->
            (List.length run' <= List.length run)%nat)
      /\ calculate_streak today df = 1 + Z.of_nat (List.length run))
  /\ (forall d1, rest = [d1] -> days_between today d0 = 0 ->
      days_between today d1 = 3 -> calculate_streak today df = 1).
Proof.
  intros Hdesc Hin Hd.
  pose proof (dates_spec df (d0 :: rest) Hdesc Hin) as E.
  assert (Halive : calculate_streak today df = walk d0 rest 1)
    by (apply (calculate_streak_alive today df d0 rest E); lia).
  split.
  - destruct (walk_run rest d0 1) as (run & tail & Hr & Hc & Hg & Hw).
    exists run, tail. repeat split; try assumption.
    + intros run' tail' Hr' Hc'.
      apply (consecutive_prefix_le run run' tail tail' d0);
        try assumption. congruence.
    + congruence.
  - intros d1 -> H0 H3. rewrite Halive. cbn [walk].
    unfold days_between in *.
    destruct (Z.eqb_spec (toordinal d0 - toordinal d1) 1);
      [lia|reflexivity].
Qed.

Lemma calculate_streak_walk_witness :
  let today := mkdate 2026 11 4 in
  let task d := mkRow "quest" "" d (mktime 9 0 0 0) (mktime 10 0 0 0)
                  true "#3788d8" in
  calculate_streak today [task (mkdate 2026 11 1); task today] = 1.
Proof.
  intros today task.
  assert (Hdesc : descending [today; mkdate 2026 11 1]).
  { repeat constructor. }
  assert (Hin : forall d, In d [today; mkdate 2026 11 1] <->
                  completed_on [task (mkdate 2026 11 1); task today] d).
  { intros d. unfold completed_on. split.
    - intros [<-|[<-|[]]].
      + exists (task today). cbn. tauto.
      + exists (task (mkdate 2026 11 1)). cbn. tauto.
    - intros (t & [<-|[<-|[]]] & _ & <-); cbn; tauto. }
  assert (H0 : days_between today today = 0 \/ days_between today today = 1)
    by (left; reflexivity).
  refine (proj2 (calculate_streak_walk today
                   [task (mkdate 2026 11 1); task today]
                   today [mkdate 2026 11 1] Hdesc Hin H0)
            (mkdate 2026 11 1) _ _ _).
  - reflexivity.
  - reflexivity.
  - vm_compute. reflexivity.
Defined.

(** C6.  [calculate_streak] returns 0 exactly when the task set is empty,
    no task is completed, or the most recent completion date is more than
    one day before today.  A most recent date of today or yesterday gives
    at least 1; a single completed task, of today or yesterday, gives 1;
    completed tasks that are all two or more days old give 0. *)
Theorem calculate_streak_zero (today : date) (df : DataFrame) :
  (calculate_streak today df = 0 <->
     df = [] \/ (forall t, In t df -> Status t = false)
     \/ exists d, most_recent df d /\ 1 < days_between today d)
  /\ (forall d, most_recent df d ->
       days_between today d = 0 \/ days_between today d = 1 ->
       1 <= calculate_streak today df)
  /\ (forall t, completed df = [t] ->
       days_between today (Date t) = 0 \/ days_between today (Date t) = 1 ->
       calculate_streak today df = 1)
  /\ ((forall t, In t df -> Status t = true ->
        2 <= days_between today (Date t)) ->
      calculate_streak today df = 0).
Proof.
  assert (Hnone : dates df = [] -> forall t, In t df -> Status t = false).
  { intros E t Ht. destruct (Status t) eqn:Es; [|reflexivity].
    assert (In (Date t) (dates df)) as Hin
      by (apply dates_In; exists t; tauto).
    rewrite E in Hin. contradiction. }
  split; [|split; [|split]].
  - split.
    + intros H0. destruct (dates df) as [|d0 rest] eqn:E.
      * right; left. now apply Hnone.
      * right; right. exists d0.
        split; [eapply dates_head_most_recent; exact E|].
        destruct (Z_le_gt_dec (days_between today d0) 1) as [Hle|Hgt];
          [|lia].
        rewrite (calculate_streak_alive today df d0 rest E Hle) in H0.
        pose proof (walk_ge rest d0 1). lia.
    + intros [->|[Hno|(d & Hm & Hgap)]].
      * reflexivity.
      * apply calculate_streak_none.
        destruct (dates df) as [|d0 rest] eqn:E; [reflexivity|].
        assert (completed_on df d0) as (t & Ht & Hs & _)
          by (apply dates_In; rewrite E; now left).
        rewrite (Hno t Ht) in Hs. discriminate.
      * destruct (most_recent_dates df d Hm) as (rest & E).
        now apply (calculate_streak_broken today df d rest).
  - intros d Hm Hd.
    destruct (most_recent_dates df d Hm) as (rest & E).
    rewrite (calculate_streak_alive today df d rest E) by lia.
    apply walk_ge.
  - intros t Ht Hd.
    assert (E : dates df = [Date t])
      by (unfold dates; rewrite Ht; reflexivity).
    rewrite (calculate_streak_alive today df (Date t) [] E) by lia.
    reflexivity.
  - intros Hold. destruct (dates df) as [|d0 rest] eqn:E.
    + now apply calculate_streak_none.
    + assert (completed_on df d0) as (t & Ht & Hs & Ed)
        by (apply dates_In; rewrite E; now left).
      apply (calculate_streak_broken today df d0 rest E).
      specialize (Hold t Ht Hs). rewrite Ed in Hold. lia.
Qed.

Lemma calculate_streak_zero_witness :
  let today := mkdate 2026 11 4 in
  let task d := mkRow "quest" "" d (mktime 9 0 0 0) (mktime 10 0 0 0)
                  true "#3788d8" in
  calculate_streak today [task (mkdate 2026 11 3)] = 1
  /\ calculate_streak today [task (mkdate 2026 11 2)] = 0.
Proof.
  intros today task. split.
  - destruct (calculate_streak_zero today [task (mkdate 2026 11 3)])
      as (_ & _ & Hone & _).
    apply (Hone (task (mkdate 2026 11 3))); [reflexivity|].
    right. vm_compute. reflexivity.
  - destruct (calculate_streak_zero today [task (mkdate 2026 11 2)])
      as (_ & _ & _ & Hold).
    apply Hold. intros t [<-|[]] _. vm_compute. discriminate.
Defined.

(** C9.  A most recent completion date strictly after today does not
    break the streak: [today - date] is negative, so the test
    [(today - dates[0]).days > 1] fails and the result is at least 1, also
    when nothing was completed today or yesterday. *)
Theorem calculate_streak_future (today : date) (df : DataFrame) (d : date) :
  valid_date today = true -> valid_date d = true ->
  most_recent df d -> date_ltb today d = true ->
  (days_between today d >? 1) = false
  /\ 1 <= calculate_streak today df.
Proof.
  intros Vt Vd Hm Hlt.
  apply (date_ltb_days today d Vt Vd) in Hlt.
  split.
  - destruct (Z.gtb_spec (days_between today d) 1); [lia|reflexivity].
  - destruct (most_recent_dates df d Hm) as (rest & E).
    rewrite (calculate_streak_alive today df d rest E) by lia.
    apply walk_ge.
Qed.

Lemma calculate_streak_future_witness :
  let today := mkdate 2026 11 4 in
  let task := mkRow "quest" "" (mkdate 2027 1 15) (mktime 9 0 0 0)
                (mktime 10 0 0 0) true "#3788d8" in
  1 <= calculate_streak today [task]
  /\ calculate_streak today [task] = 1.
Proof.
  intros today task. split; [|vm_compute; reflexivity].
  refine (proj2 (calculate_streak_future today [task] (mkdate 2027 1 15)
                   _ _ _ _)).
  - reflexivity.
  - reflexivity.
  - eapply dates_head_most_recent. vm_compute. reflexivity.
  - reflexivity.
Defined.

End Streaks.

(* ================================================================== *)
(** * 14. ISO text: what [isoformat] writes, [fromisoformat] reads *)
(* ================================================================== *)

Module IsoFacts.
Import Datetime Iso.

Lemma digit_val_digit (k : Z) :
  0 <= k <= 9 -> digit_val (digit k) = Some k.
Proof.
  intros Hk. unfold digit_val, digit.
  rewrite nat_ascii_embedding by lia.
  rewrite Z2Nat.id by lia.
  destruct (Z.leb_spec 48 (48 + k)); [|lia].
  destruct (Z.leb_spec (48 + k) 57); [|lia].
  cbn [andb]. f_equal. lia.
Qed.

(** Reading [n + 1] digits is reading [n] digits and one more. *)
Lemma read_digits_snoc (n : nat) (acc : Z) (s : string) :
  read_digits (S n) acc s =
  match read_digits n acc s with
  | Some (a, String c s') =>
      match digit_val c with
      | Some v => Some (10 * a + v, s')
      | None => None
      end
  | _ => None
  end.
Proof.
  revert acc s. induction n as [|n IH]; intros acc s.
  - cbn. destruct s as [|c s]; [reflexivity|].
    destruct (digit_val c); reflexivity.
  - change (read_digits (S (S n)) acc s) with
      (match s with
       | String c s' =>
           match digit_val c with
           | Some v => read_digits (S n) (10 * acc + v) s'
           | None => None
           end
       | EmptyString => None
       end).
    destruct s as [|c s]; [reflexivity|].
    cbn [read_digits]. destruct (digit_val c) as [v|]; [|reflexivity].
    rewrite <- IH. reflexivity.
Qed.

Lemma read_digits_zfill (n : nat) (k acc : Z) (rest : string) :
  0 <= k < 10 ^ Z.of_nat n ->
  read_digits n acc (zfill n k rest)
  = Some (acc * 10 ^ Z.of_nat n + k, rest).
Proof.
  revert k rest. induction n as [|n IH]; intros k rest Hk.
  - cbn in *. f_equal. f_equal. lia.
  - rewrite Nat2Z.inj_succ, Z.pow_succ_r in * by lia.
    rewrite read_digits_snoc. cbn [zfill].
    rewrite IH by (Z.div_mod_to_equations; lia).
    rewrite digit_val_digit by (Z.div_mod_to_equations; lia).
    f_equal. f_equal. Z.div_mod_to_equations. lia.
Qed.

Lemma length_zfill (n : nat) (k : Z) (rest : string) :
  String.length (zfill n k rest) = (n + String.length rest)%nat.
Proof.
  revert k rest. induction n as [|n IH]; intros k rest; [reflexivity|].
  cbn [zfill]. rewrite IH. cbn [String.length]. lia.
Qed.

Lemma days_in_month_le (y m : Z) : days_in_month y m <= 31.
Proof.
  unfold days_in_month.
  destruct ((m =? 2) && is_leap y); [lia|].
  unfold DAYS_IN_MONTH.
  destruct m as [|p|p]; try lia.
  do 4 (try destruct p as [p|p|]; try lia).
Qed.

(** A date written by [isoformat] is read back by [fromisoformat]. *)
Lemma date_roundtrip (d : date) :
  valid_date d = true -> date_fromisoformat (date_isoformat d) = Some d.
Proof.
  intros V. destruct d as [y m dd].
  assert (V' := V). unfold valid_date in V'. cbn [year month day] in V'.
  rewrite !andb_true_iff, !Z.leb_le in V'.
  pose proof (days_in_month_le y m).
  unfold MINYEAR, MAXYEAR in V'.
  unfold date_fromisoformat, date_isoformat. cbn [year month day].
  rewrite read_digits_zfill by (cbn; lia).
  rewrite read_digits_zfill by (cbn; lia).
  rewrite read_digits_zfill by (cbn; lia).
  unfold make_date. cbn [Z.mul Z.add]. rewrite V. reflexivity.
Qed.

(** A time written by [isoformat] is read back by [fromisoformat]. *)
Lemma time_roundtrip (t : time) :
  valid_time t = true -> time_fromisoformat (time_isoformat t) = Some t.
Proof.
  intros V. destruct t as [h m s us].
  assert (V' := V). unfold valid_time in V'.
  cbn [hour minute second microsecond] in V'.
  rewrite !andb_true_iff, !Z.leb_le in V'.
  unfold time_fromisoformat, time_isoformat.
  cbn [hour minute second microsecond].
  rewrite read_digits_zfill by (cbn; lia).
  rewrite read_digits_zfill by (cbn; lia).
  rewrite read_digits_zfill by (cbn; lia).
  destruct (Z.eqb_spec us 0) as [->|Hus].
  - unfold make_time. cbn [Z.mul Z.add]. rewrite V. reflexivity.
  - unfold read_fraction. rewrite length_zfill. cbn [String.length Nat.add].
    rewrite read_digits_zfill by (cbn; lia).
    unfold make_time. cbn [Z.mul Z.add]. rewrite V. reflexivity.
Qed.

End IsoFacts.

(* ================================================================== *)
(** * 15. Save and load *)
(* ================================================================== *)

Section SaveLoad.
Import Datetime Iso IsoFacts SessionM StateRepository.

Lemma apply_map {A B C} (f : B -> option C) (g : A -> B) (h : A -> C)
    (xs : list A) :
  (forall x, In x xs -> f (g x) = Some (h x)) ->
  apply f (map g xs) = Some (map h xs).
Proof.
  induction xs as [|x xs IH]; intros H; [reflexivity|].
  cbn [map apply]. rewrite (H x (or_introl eq_refl)).
  rewrite IH by (intros y Hy; apply H; now right). reflexivity.
Qed.

Lemma apply_None {A B} (f : A -> option B) (xs : list A) :
  apply f xs = None <-> exists x, In x xs /\ f x = None.
Proof.
  induction xs as [|x xs IH]; cbn [apply In].
  - split; [discriminate|]. intros (x & [] & _).
  - destruct (f x) as [y|] eqn:E.
    + destruct (apply f xs) as [ys|] eqn:E'.
      * split; [discriminate|].
        intros (z & [<-|Hz] & Hf); [congruence|].
        assert (Some ys = None) as X by (apply IH; exists z; tauto).
        discriminate.
      * split; [|reflexivity]. intros _.
        destruct (proj1 IH eq_refl) as (z & Hz & Hf).
        exists z. tauto.
    + split; [|reflexivity]. intros _. exists x. tauto.
Qed.

Lemma apply_Some_Forall2 {A B} (f : A -> option B) (xs : list A)
    (ys : list B) :
  apply f xs = Some ys -> Forall2 (fun x y => f x = Some y) xs ys.
Proof.
  revert ys. induction xs as [|x xs IH]; intros ys; cbn [apply].
  - intros [= <-]. constructor.
  - destruct (f x) as [y|] eqn:E; [|discriminate].
    destruct (apply f xs) as [ys'|]; [|discriminate].
    intros [= <-]. constructor; [exact E|]. now apply IH.
Qed.

Lemma Forall2_In_l {A B} (R : A -> B -> Prop) (xs : list A) (ys : list B)
    (x : A) :
  Forall2 R xs ys -> In x xs -> exists y, In y ys /\ R x y.
Proof.
  induction 1 as [|a b xs ys Hab _ IH]; intros Hin; [contradiction|].
  destruct Hin as [<-|Hin].
  - exists b. split; [now left|exact Hab].
  - destruct (IH Hin) as (y & Hy & Hr). exists y. split; [now right|exact Hr].
Qed.

Lemma well_formed_task_inv (ts : list Task) (t : Task) :
  forallb well_formed_task ts = true -> In t ts ->
  valid_date (Date t) = true /\ valid_time (Start t) = true
  /\ valid_time (End_ t) = true.
Proof.
  rewrite forallb_forall. intros H Ht. specialize (H t Ht).
  unfold well_formed_task in H. rewrite !andb_true_iff in H. tauto.
Qed.

Lemma parse_exported (ts : list Task) :
  forallb well_formed_task ts = true ->
  apply_Date date_fromisoformat (map encode_record ts)
    = Some (map dated ts)
  /\ apply_Start time_fromisoformat (map dated ts) = Some (map started ts)
  /\ apply_End time_fromisoformat (map started ts) = Some ts.
Proof.
  intros W. split; [|split].
  - apply apply_map. intros t Ht.
    destruct (well_formed_task_inv ts t W Ht) as (Vd & _ & _).
    cbn [encode_record Date]. now rewrite (date_roundtrip _ Vd).
  - apply apply_map. intros t Ht.
    destruct (well_formed_task_inv ts t W Ht) as (_ & Vs & _).
    cbn [dated Start]. now rewrite (time_roundtrip _ Vs).
  - rewrite <- (map_id ts) at 2. apply apply_map. intros t Ht.
    destruct (well_formed_task_inv ts t W Ht) as (_ & _ & Ve).
    cbn [started End_]. rewrite (time_roundtrip _ Ve).
    destruct t; reflexivity.
Qed.

(** With a boss HP that is a Python int, exporting a session whose tasks
    hold well-formed dates and times and loading the result back, over any
    prior session, gives the exported session again. *)
Lemma export_load_python_int (s prior : session) :
  well_formed s = true ->
  exists json_data,
    export_data py_int s = Some json_data
    /\ load_data json_data prior = (s, Some Loaded).
Proof.
  destruct s as [ts bxp ab]. unfold well_formed. cbn [tasks]. intros W.
  destruct (parse_exported ts W) as (Hd & Hs & He).
  eexists. split.
  { unfold export_data. cbn [active_boss]. destruct ab; reflexivity. }
  unfold load_data, try_except, load_data_body, bind,
    set_boss_xp, set_active_boss, set_tasks, ret, dict_get.
  cbn [f_tasks f_boss_xp f_active_boss tasks boss_xp active_boss].
  destruct ts as [|t ts]; [reflexivity|].
  cbn [map empty negb].
  change (encode_record t :: map encode_record ts)
    with (map encode_record (t :: ts)).
  rewrite Hd. cbn [lift ret]. rewrite Hs. cbn [lift ret]. rewrite He.
  reflexivity.
Qed.


(** A file with a task whose date or time text does not parse is reported
    as corrupt; its tasks are not taken, its bonus XP and boss are. *)
Lemma load_data_corrupt (json_data : SaveFile) (prior : session)
    (rows : list TaskRecord) :
  f_tasks json_data = Some rows ->
  (exists r, In r rows /\ malformed r) ->
  load_data json_data prior
  = (half_loaded json_data prior, Some CorruptSaveFile).
Proof.
  intros Hrows (r & Hr & Hbad).
  unfold load_data, try_except, load_data_body, bind,
    set_boss_xp, set_active_boss, set_tasks, ret.
  rewrite Hrows. cbn [dict_get tasks boss_xp active_boss].
  destruct rows as [|r0 rows']; [contradiction|].
  cbn [empty negb]. set (rows := r0 :: rows') in *.
  destruct (apply_Date date_fromisoformat rows) as [df1|] eqn:E1;
    [|reflexivity].
  cbn [lift ret].
  destruct (apply_Start time_fromisoformat df1) as [df2|] eqn:E2;
    [|reflexivity].
  cbn [lift ret].
  destruct (apply_End time_fromisoformat df2) as [df3|] eqn:E3;
    [|reflexivity].
  exfalso.
  apply apply_Some_Forall2 in E1, E2, E3.
  destruct (Forall2_In_l _ _ _ r E1 Hr) as (r1 & Hr1 & H1).
  destruct (Forall2_In_l _ _ _ r1 E2 Hr1) as (r2 & Hr2 & H2).
  destruct (Forall2_In_l _ _ _ r2 E3 Hr2) as (r3 & Hr3 & H3).
  cbv beta in H1, H2, H3.
  destruct (date_fromisoformat (Date r)) as [d|] eqn:Pd; [|discriminate].
  injection H1 as <-. cbn [Start End_] in *.
  destruct (time_fromisoformat (Start r)) as [t1|] eqn:Ps; [|discriminate].
  injection H2 as <-. cbn [Start End_] in *.
  destruct (time_fromisoformat (End_ r)) as [t2|] eqn:Pe; [|discriminate].
  destruct Hbad as [Hb|[Hb|Hb]]; congruence.
Qed.

(** C5.  Loading a file with a task whose date does not parse is reported
    as a corrupt save file, but the load is not all-or-nothing: the task
    table of the prior session stays, while its bonus XP and its active
    boss have already been replaced by those of the file. *)
Theorem load_data_not_atomic :
  malformed (mkRow "Read the docs" "" "04/11/2026" "09:00:00" "10:00:00"
               false "#3788d8")
  /\ load_data bad_date_file fighting
     = (mksession (tasks fighting) 0 None, Some CorruptSaveFile)
  /\ fst (load_data bad_date_file fighting) <> fighting.
Proof.
  split; [left; vm_compute; reflexivity|].
  split; [vm_compute; reflexivity|].
  vm_compute. discriminate.
Qed.

End SaveLoad.

(* ================================================================== *)
(** * 16. The tests of [test_app.py]

    Each test of the repository, for every value of [date.today()]. *)
(* ================================================================== *)

Section Tests.
Import Datetime DateOrder GamificationService BossManager.

Lemma test_calculate_stats_zero_xp :
  exists st, calculate_stats [] 0 = Some st /\ xp st = 0 /\ level st = 1.
Proof. eexists. repeat split. Qed.

Lemma test_calculate_stats_task_xp (t : Task) :
  Status t = true ->
  exists st, calculate_stats [t] 0 = Some st /\ xp st = 50.
Proof.
  intros H.
  destruct (calculate_stats_exact [t] 0) as (st & E & Hxp);
    [lia|cbn [filter]; rewrite H; cbn; lia|].
  exists st. split; [exact E|]. rewrite Hxp. cbn [filter]. now rewrite H.
Qed.

Lemma test_streak_today_only (today : date) (t : Task) :
  Status t = true -> Date t = today -> calculate_streak today [t] = 1.
Proof.
  intros Hs Hd.
  assert (E : dates [t] = [today])
    by (unfold dates, completed; cbn [filter]; rewrite Hs;
        cbn [Bool.eqb map]; rewrite Hd; reflexivity).
  rewrite (calculate_streak_alive today [t] today [] E); [reflexivity|].
  unfold days_between. lia.
Qed.

Lemma test_streak_broken_gap (today three_days_ago : date) (t1 t2 : Task) :
  valid_date today = true -> valid_date three_days_ago = true ->
  days_between today three_days_ago = 3 ->
  Status t1 = true -> Date t1 = today ->
  Status t2 = true -> Date t2 = three_days_ago ->
  calculate_streak today [t1; t2] = 1.
Proof.
  intros Vt V3 Hgap Hs1 Hd1 Hs2 Hd2.
  assert (Hlt : date_ltb today three_days_ago = false).
  { destruct (date_ltb today three_days_ago) eqn:E; [|reflexivity].
    apply (date_ltb_days _ _ Vt V3) in E. lia. }
  assert (Hne : date_eqb three_days_ago today = false).
  { destruct (date_eqb three_days_ago today) eqn:E; [|reflexivity].
    apply date_eqb_eq in E. rewrite E in Hgap.
    unfold days_between in Hgap. lia. }
  assert (E : dates [t1; t2] = [today; three_days_ago]).
  { unfold dates, completed. cbn [filter]. rewrite Hs1, Hs2.
    cbn [Bool.eqb map]. rewrite Hd1, Hd2.
    unfold Pandas.unique. cbn [Pandas.unique_from existsb].
    rewrite Hne. cbn [orb Builtins.sorted_reverse fold_right
                      Builtins.insert_desc].
    now rewrite Hlt. }
  rewrite (calculate_streak_alive _ _ _ _ E) by (unfold days_between; lia).
  cbn [walk]. rewrite Hgap. reflexivity.
Qed.

Lemma test_boss_damage (image : string) :
  deal_damage (mkBoss "Test Boss" 100 100 image) 2
  = (mkBoss "Test Boss" 100 80 image, 20).
Proof. reflexivity. Qed.

End Tests.

(* ================================================================== *)
(** * 17. More on experience and level *)
(* ================================================================== *)

Section MoreStats.
Import GamificationService Numpy NumpyFacts.

(** The count of completed tasks, when one task is put into the table. *)
Lemma count_insert (df1 df2 : DataFrame) (t : Task) :
  Z.of_nat (List.length (filter Status (df1 ++ t :: df2)))
  = Z.of_nat (List.length (filter Status (df1 ++ df2)))
    + (if Status t then 1 else 0).
Proof.
  rewrite !filter_app, !length_app. cbn [filter].
  destruct (Status t); cbn [List.length]; lia.
Qed.

(** The XP of two tables, one with [k] more completed tasks and [d] more
    bonus than the other, when the larger sum does not overflow. *)
Lemma xp_step (df df' : DataFrame) (bonus bonus' : Z) (st st' : stats) :
  (df' = [] -> df = []) ->
  calculate_stats df bonus = Some st ->
  calculate_stats df' bonus' = Some st' ->
  (df' <> [] ->
   -9223372036854775808 <= xp st
      + (Z.of_nat (List.length (filter Status df'))
         - Z.of_nat (List.length (filter Status df))) * 50
      + (bonus' - bonus) <= 9223372036854775807) ->
  xp st' = xp st
     + (Z.of_nat (List.length (filter Status df'))
        - Z.of_nat (List.length (filter Status df))) * 50
     + (bonus' - bonus).
Proof.
  intros Hempty E E' Hr.
  destruct (calculate_stats_Some df bonus st E) as (_ & _ & H0 & H1).
  destruct (calculate_stats_Some df' bonus' st' E') as (_ & _ & H0' & H1').
  set (c := Z.of_nat (List.length (filter Status df))) in *.
  set (c' := Z.of_nat (List.length (filter Status df'))) in *.
  assert (Hx : xp st = c * 50 + bonus
               \/ (df <> [] /\ xp st = wrap_int64 (c * 50 + bonus))).
  { destruct df as [|t df].
    - left. rewrite (H0 eq_refl). unfold c. cbn. lia.
    - right. split; [discriminate|]. now destruct H1 as [_ ->]. }
  assert (Hx' : (df' = [] /\ xp st' = c' * 50 + bonus')
                \/ (xp st' = wrap_int64 (c' * 50 + bonus')
                    /\ -9223372036854775808
                       <= xp st + (c' - c) * 50 + (bonus' - bonus)
                       <= 9223372036854775807)).
  { destruct df' as [|t df'].
    - left. split; [reflexivity|]. rewrite (H0' eq_refl). unfold c'. cbn. lia.
    - right. split; [now destruct H1' as [_ ->]|].
      apply Hr. discriminate. }
  clearbody c c'. clear H0 H1 H0' H1' E E' Hr.
  destruct Hx' as [[Hd Hx']|[Hx' Hr]], Hx as [Hx|[Hn Hx]];
    try (contradiction Hn; now apply Hempty);
    rewrite Hx', Hx in *; unfold wrap_int64 in *;
    Z.div_mod_to_equations; lia.
Qed.

(** X1.  The bonus for a defeated boss is one whole level: when
    [calculate_stats] returns for a bonus and for that bonus plus
    [BOSS_BONUS_XP], and the XP plus 500 is still an [int64], the 500 more
    bonus XP add 500 XP, raise the level by exactly one and leave the
    progress within the level where it was. *)
Theorem boss_bonus_is_one_level (df : DataFrame) (bonus : Z)
    (st st' : stats) :
  calculate_stats df bonus = Some st ->
  calculate_stats df (bonus + GameConfig.BOSS_BONUS_XP) = Some st' ->
  xp st + 500 < 9223372036854775808 ->
  xp st' = xp st + 500 /\ level st' = level st + 1
  /\ (progress st' == progress st)%Q.
Proof.
  intros E E' Hr.
  destruct (calculate_stats_Some df bonus st E) as (Hl & Hp & H0 & H1).
  destruct (calculate_stats_Some _ _ st' E') as (Hl' & Hp' & _).
  assert (Hlo : df <> [] -> -9223372036854775808 <= xp st).
  { intros Hne. destruct (H1 Hne) as [_ ->].
    pose proof (wrap_int64_range
      (Z.of_nat (List.length (filter Status df)) * 50 + bonus)).
    lia. }
  assert (Hxp : xp st' = xp st + 1 * 500).
  { rewrite (xp_step df df bonus (bonus + GameConfig.BOSS_BONUS_XP) st st'
               (fun H => H) E E'); unfold GameConfig.BOSS_BONUS_XP; [lia|].
    intros Hne. specialize (Hlo Hne). lia. }
  split; [lia|]. split.
  - rewrite Hl', Hl, Hxp, Z.div_add by discriminate. lia.
  - rewrite Hp', Hp, Hxp, Z.mod_add by discriminate. reflexivity.
Qed.

Lemma boss_bonus_is_one_level_witness :
  exists st st',
    calculate_stats [] 470 = Some st /\ calculate_stats [] 970 = Some st'
    /\ level st = 1 /\ level st' = 2.
Proof.
  exists (mkstats 470 1 (inject_Z 470 / inject_Z 500)),
         (mkstats 970 2 (inject_Z 470 / inject_Z 500)).
  assert (Hr : 470 + 500 < 9223372036854775808) by lia.
  destruct (boss_bonus_is_one_level [] 470 _ _ eq_refl eq_refl Hr)
    as (_ & Hlevel & _).
  repeat split.
Defined.

(** A task that is not completed changes nothing, on a table that is not
    empty or with a bonus that is an [int64]. *)
Lemma open_task_worth_nothing (df1 df2 : DataFrame) (t : Task) (bonus : Z) :
  Status t = false ->
  df1 ++ df2 <> [] \/ fits_int64 bonus = true ->
  calculate_stats (df1 ++ t :: df2) bonus
  = calculate_stats (df1 ++ df2) bonus.
Proof.
  intros Hs Hok. pose proof (count_insert df1 df2 t) as Hcount.
  rewrite Hs, Z.add_0_r in Hcount.
  unfold calculate_stats.
  destruct (df1 ++ df2) as [|u l] eqn:El.
  - destruct df1; [|discriminate El]. cbn [app] in *. subst df2.
    destruct Hok as [H|F]; [contradiction H; reflexivity|].
    cbn [empty negb map Pandas.sum fold_right Status].
    rewrite Hs. unfold mul, add, GameConfig.XP_PER_TASK.
    change (fits_int64 50) with true. cbv iota. rewrite F.
    apply fits_int64_iff in F.
    rewrite !wrap_int64_id by (cbn; lia). reflexivity.
  - assert (empty (df1 ++ t :: df2) = false) as ->
      by (destruct df1; reflexivity).
    cbn [empty negb]. rewrite !sum_Status_count, Hcount. reflexivity.
Qed.

(** X2.  One more completed task, put anywhere into the table, is worth
    exactly 50 XP and raises the level by one at most, as long as the XP
    plus 50 is still an [int64]; a task that is not completed is worth
    nothing, on a table that is not empty or with a bonus that is an
    [int64]. *)
Theorem task_worth (df1 df2 : DataFrame) (t : Task) (bonus : Z) :
  (Status t = true ->
   forall before after,
     calculate_stats (df1 ++ df2) bonus = Some before ->
     calculate_stats (df1 ++ t :: df2) bonus = Some after ->
     xp before + 50 < 9223372036854775808 ->
     xp after = xp before + 50
     /\ level before <= level after <= level before + 1)
  /\ (Status t = false ->
      df1 ++ df2 <> [] \/ fits_int64 bonus = true ->
      calculate_stats (df1 ++ t :: df2) bonus
      = calculate_stats (df1 ++ df2) bonus).
Proof.
  pose proof (count_insert df1 df2 t) as Hcount.
  split.
  - intros Hs before after E E' Hr. rewrite Hs in Hcount.
    destruct (calculate_stats_Some _ _ _ E) as (Hl & _ & H0 & H1).
    destruct (calculate_stats_Some _ _ _ E') as (Hl' & _ & _ & H1').
    assert (Hne : df1 ++ t :: df2 <> []) by (destruct df1; discriminate).
    destruct (H1' Hne) as [F _]. apply fits_int64_iff in F.
    assert (Hlo : -9223372036854775808 <= xp before).
    { destruct (df1 ++ df2) as [|u l] eqn:El.
      - rewrite (H0 eq_refl). lia.
      - destruct H1 as [_ ->]; [discriminate|].
        pose proof (wrap_int64_range
          (Z.of_nat (List.length (filter Status (u :: l))) * 50 + bonus)).
        lia. }
    assert (Hxp : xp after = xp before + 50).
    { rewrite (xp_step _ _ bonus bonus before after
                 (fun H => False_ind _ (Hne H)) E E'); [lia|].
      intros _. lia. }
    split; [exact Hxp|]. rewrite Hl', Hl, Hxp.
    Z.div_mod_to_equations. lia.
  - intros Hs Hok. now apply open_task_worth_nothing.
Qed.

Lemma task_worth_witness :
  let quest s := mkRow "quest" "" (mkdate 2026 11 4) (mktime 9 0 0 0)
                   (mktime 10 0 0 0) s "#3788d8" in
  (exists after,
      calculate_stats [quest true; quest true] 450 = Some after
      /\ xp after = 550)
  /\ calculate_stats [quest true; quest false] 450
     = calculate_stats [quest true] 450.
Proof.
  intros quest.
  destruct (task_worth [quest true] [] (quest true) 450) as [Hdone _].
  destruct (task_worth [quest true] [] (quest false) 450) as [_ Hopen].
  split.
  - eexists. split; [reflexivity|].
    refine (proj1 (Hdone eq_refl _ _ eq_refl eq_refl _)).
    cbn. lia.
  - apply (Hopen eq_refl). left. discriminate.
Defined.

Lemma render_hud_ok (df : DataFrame) (bonus streak : Z) (st : stats) :
  calculate_stats df bonus = Some st -> UI.render_hud st streak = Some tt.
Proof.
  intros E. destruct (progress_in_unit df bonus st E) as [H0 H1].
  unfold UI.render_hud, Streamlit.progress.
  rewrite (proj2 (Qle_bool_iff _ _) H0).
  rewrite (proj2 (Qle_bool_iff _ _) (Qlt_le_weak _ _ H1)). reflexivity.
Qed.

(** X3.  The progress bar of the head-up display never raises: whatever the
    task table and the bonus, also a negative one from a save file and one
    that made the XP wrap around, the progress of the stats that
    [calculate_stats] returns is within [0, 1], as [st.progress] wants. *)
Theorem render_hud_never_raises (df : DataFrame) (bonus streak : Z)
    (st : stats) :
  calculate_stats df bonus = Some st -> UI.render_hud st streak = Some tt.
Proof. apply render_hud_ok. Qed.

Lemma render_hud_never_raises_witness :
  exists st,
    calculate_stats [] (-20) = Some st /\ UI.render_hud st 0 = Some tt.
Proof.
  eexists. split; [reflexivity|].
  apply (render_hud_never_raises [] (-20) 0). reflexivity.
Defined.

(** X4.  The level that [calculate_stats] returns is at least 1 exactly
    when the XP it returns is not negative; a save file with a bonus
    negative enough gives a level of 0 or less. *)
Theorem level_positive_iff (df : DataFrame) (bonus : Z) (st : stats) :
  calculate_stats df bonus = Some st ->
  (1 <= level st <-> 0 <= xp st).
Proof.
  intros E. destruct (calculate_stats_Some df bonus st E) as (-> & _).
  Z.div_mod_to_equations. lia.
Qed.

Lemma level_positive_iff_witness :
  exists st, calculate_stats [] (-20) = Some st /\ ~ 1 <= level st.
Proof.
  eexists. split; [reflexivity|].
  intros H.
  apply (level_positive_iff [] (-20) _ eq_refl) in H.
  cbn in H. lia.
Defined.

End MoreStats.

(* ================================================================== *)
(** * 18. More on the streak *)
(* ================================================================== *)

Section MoreStreaks.
Import Datetime DateOrder Pandas Builtins GamificationService.

Lemma unique_from_length (l seen : list date) :
  (List.length (unique_from seen l) <= List.length l)%nat.
Proof.
  revert seen. induction l as [|d l IH]; intros seen; cbn [unique_from].
  - apply le_n.
  - destruct (existsb (date_eqb d) seen); cbn [List.length].
    + apply le_S, IH.
    + apply le_n_S, IH.
Qed.

Lemma dates_length (df : DataFrame) :
  (List.length (dates df) <= List.length (filter Status df))%nat.
Proof.
  unfold dates.
  rewrite <- (Permutation_length (sorted_reverse_Permutation _)).
  unfold unique. etransitivity; [apply unique_from_length|].
  rewrite length_map. unfold completed.
  rewrite (filter_ext (fun t : Task => Bool.eqb (Status t) true) Status);
    [apply le_n|].
  intros t. now destruct (Status t).
Qed.

Lemma walk_le (rest : list date) (cursor : date) (streak : Z) :
  walk cursor rest streak <= streak + Z.of_nat (List.length rest).
Proof.
  destruct (walk_run rest cursor streak) as (run & tail & -> & _ & _ & ->).
  rewrite length_app. lia.
Qed.

(** X5.  The streak is never negative and never more than the number of
    distinct days with a completed task, which is at most the number of
    completed tasks. *)
Theorem calculate_streak_bounds (today : date) (df : DataFrame) :
  0 <= calculate_streak today df <= Z.of_nat (List.length (dates df))
  /\ (List.length (dates df) <= List.length (filter Status df))%nat.
Proof.
  split; [|apply dates_length].
  destruct (dates df) as [|d0 rest] eqn:E.
  - rewrite (calculate_streak_none today df E). cbn. lia.
  - destruct (Z_le_gt_dec (days_between today d0) 1) as [Hle|Hgt].
    + rewrite (calculate_streak_alive today df d0 rest E Hle).
      pose proof (walk_ge rest d0 1). pose proof (walk_le rest d0 1).
      cbn [List.length]. lia.
    + rewrite (calculate_streak_broken today df d0 rest E) by lia.
      cbn [List.length]. lia.
Qed.

Lemma dates_ext (df df' : DataFrame) :
  (forall d, completed_on df d <-> completed_on df' d) ->
  dates df = dates df'.
Proof.
  intros H. apply descending_ext; try apply dates_descending.
  intros x. rewrite !dates_In. apply H.
Qed.

Lemma calculate_streak_dates (today : date) (df df' : DataFrame) :
  dates df = dates df' ->
  calculate_streak today df = calculate_streak today df'.
Proof.
  intros E. destruct (dates df) as [|d0 rest] eqn:E1.
  - rewrite (calculate_streak_none today df E1).
    now rewrite (calculate_streak_none today df').
  - symmetry in E.
    destruct (Z_le_gt_dec (days_between today d0) 1) as [Hle|Hgt].
    + rewrite (calculate_streak_alive today df d0 rest E1 Hle).
      now rewrite (calculate_streak_alive today df' d0 rest E Hle).
    + rewrite (calculate_streak_broken today df d0 rest E1) by lia.
      now rewrite (calculate_streak_broken today df' d0 rest E) by lia.
Qed.

(** X6.  The streak depends on the task table only through the set of days
    on which some task is completed: the order of the rows, several tasks on
    one day, tasks that are not completed and every other column make no
    difference. *)
Theorem calculate_streak_days_only (today : date) (df df' : DataFrame) :
  (forall d, completed_on df d <-> completed_on df' d) ->
  calculate_streak today df = calculate_streak today df'.
Proof.
  intros H. apply calculate_streak_dates, dates_ext, H.
Qed.

Lemma calculate_streak_days_only_witness :
  let today := mkdate 2026 11 4 in
  let quest title d s := mkRow title "" d (mktime 9 0 0 0) (mktime 10 0 0 0)
                           s "#3788d8" in
  calculate_streak today
    [quest "a" (mkdate 2026 11 3) true; quest "b" today true]
  = calculate_streak today
      [quest "c" today true; quest "d" (mkdate 2026 10 1) false;
       quest "e" (mkdate 2026 11 3) true; quest "f" today true].
Proof.
  intros today quest.
  apply (calculate_streak_days_only today).
  intros d. unfold completed_on. split.
  - intros (t & [<-|[<-|[]]] & Hs & <-).
    + exists (quest "e" (mkdate 2026 11 3) true). cbn. tauto.
    + exists (quest "c" today true). cbn. tauto.
  - intros (t & [<-|[<-|[<-|[<-|[]]]]] & Hs & <-);
      try discriminate Hs.
    + exists (quest "b" today true). cbn. tauto.
    + exists (quest "a" (mkdate 2026 11 3) true). cbn. tauto.
    + exists (quest "b" today true). cbn. tauto.
Defined.

Lemma descending_app (l1 l2 : list date) :
  descending (l1 ++ l2) ->
  forall x y, In x l1 -> In y l2 -> date_ltb y x = true.
Proof.
  unfold descending. induction l1 as [|a l1 IH]; intros Hs x y Hx Hy;
    [contradiction|].
  cbn [app] in Hs. apply StronglySorted_inv in Hs. destruct Hs as [Hs Ha].
  destruct Hx as [<-|Hx].
  - rewrite Forall_forall in Ha. apply Ha, in_or_app. now right.
  - now apply (IH Hs x y).
Qed.

Lemma descending_tail (l1 l2 : list date) :
  descending (l1 ++ l2) -> descending l2.
Proof.
  unfold descending. induction l1 as [|a l1 IH]; intros Hs; [exact Hs|].
  cbn [app] in Hs. apply StronglySorted_inv in Hs. now apply IH.
Qed.

Lemma last_In (l : list date) (c : date) : In (last l c) (c :: l).
Proof.
  revert c. induction l as [|x l IH]; intros c; [now left|].
  right. replace (last (x :: l) c) with (last l x); [apply IH|].
  destruct l as [|y l]; [reflexivity|].
  change (last (y :: l) x = last (y :: l) c). apply last_cons.
Qed.

(** A consecutive run below [cursor] holds, for each of its positions, the
    day that many days before [cursor], and nothing else. *)
Lemma consecutive_days (cursor : date) (run : list date) :
  consecutive cursor run ->
  toordinal (last run cursor)
  = toordinal cursor - Z.of_nat (List.length run)
  /\ (forall i, 1 <= i <= Z.of_nat (List.length run) ->
      exists d, In d run /\ toordinal d = toordinal cursor - i)
  /\ (forall d, In d run ->
      toordinal cursor - Z.of_nat (List.length run) <= toordinal d
      < toordinal cursor).
Proof.
  induction 1 as [cursor|cursor d l Hd Hc (IHlast & IHall & IHin)].
  - cbn. split; [lia|]. split; [intros i Hi; lia|intros d []].
  - unfold days_between in Hd.
    split; [|split].
    + destruct l as [|x l]; [cbn; lia|].
      change (last (d :: x :: l) cursor) with (last (x :: l) cursor).
      rewrite (last_cons l x cursor d), IHlast. cbn [List.length]. lia.
    + intros i Hi. cbn [List.length] in Hi.
      destruct (Z.eq_dec i 1) as [->|Hne].
      * exists d. split; [now left|lia].
      * destruct (IHall (i - 1)) as (x & Hx & Ex); [lia|].
        exists x. split; [now right|lia].
    + intros x [<-|Hx]; cbn [List.length]; [lia|].
      specialize (IHin x Hx). lia.
Qed.

(** X7.  On a table of real dates, a streak of [n >= 1] is a run of
    calendar days: the most recent day with a completed task is today,
    yesterday or later, each of the [n] days ending at it has a completed
    task, and the day before those [n] has none. *)
Theorem calculate_streak_calendar (today : date) (df : DataFrame) (n : Z) :
  (forall t, In t df -> valid_date (Date t) = true) ->
  calculate_streak today df = n -> 0 < n ->
  exists d0,
    most_recent df d0
    /\ days_between today d0 <= 1
    /\ (forall i, 0 <= i < n ->
        exists d, completed_on df d /\ toordinal d = toordinal d0 - i)
    /\ (forall d, completed_on df d -> toordinal d <> toordinal d0 - n).
Proof.
  intros Hvalid Hn Hpos.
  assert (Hv : forall d, In d (dates df) -> valid_date d = true).
  { intros d Hd. apply dates_In in Hd. destruct Hd as (t & Ht & _ & <-).
    now apply Hvalid. }
  destruct (dates df) as [|d0 rest] eqn:E;
    [rewrite (calculate_streak_none today df E) in Hn; lia|].
  destruct (Z_le_gt_dec (days_between today d0) 1) as [Hle|Hgt];
    [|rewrite (calculate_streak_broken today df d0 rest E) in Hn; lia].
  rewrite (calculate_streak_alive today df d0 rest E Hle) in Hn.
  destruct (walk_run rest d0 1) as (run & tail & Hrest & Hc & Hg & Hw).
  rewrite Hw in Hn. subst rest.
  destruct (consecutive_days d0 run Hc) as (Hlast & Hall & Hin).
  pose proof (dates_descending df) as Hdesc. rewrite E in Hdesc.
  exists d0. split; [eapply dates_head_most_recent; exact E|].
  split; [exact Hle|]. split.
  - intros i Hi. destruct (Z.eq_dec i 0) as [->|Hne].
    + exists d0. split; [apply dates_In; rewrite E; now left|lia].
    + destruct (Hall i) as (d & Hd & Ed); [lia|].
      exists d. split; [|exact Ed].
      apply dates_In. rewrite E. right. apply in_or_app. now left.
  - intros d Hd. apply dates_In in Hd. rewrite E in Hd.
    destruct Hd as [<-|Hd]; [lia|].
    apply in_app_or in Hd. destruct Hd as [Hd|Hd].
    + specialize (Hin d Hd). lia.
    + (* [d] is behind the gap *)
      assert (Hlv : valid_date (last run d0) = true).
      { apply Hv. destruct (last_In run d0) as [<-|Hl]; [now left|].
        right. apply in_or_app. now left. }
      assert (Hbelow : forall y, In y tail ->
                toordinal y < toordinal (last run d0)).
      { intros y Hy. apply toordinal_lt; [| exact Hlv |].
        - apply Hv. right. apply in_or_app. now right.
        - apply (descending_app (d0 :: run) tail Hdesc);
            [apply last_In|exact Hy]. }
      destruct tail as [|e tail']; [contradiction|].
      cbn [gap_after] in Hg. unfold days_between in Hg.
      pose proof (Hbelow e (or_introl eq_refl)) as He.
      destruct Hd as [<-|Hd]; [lia|].
      assert (toordinal d < toordinal e); [|lia].
      apply toordinal_lt.
      * apply Hv. right. apply in_or_app. right. now right.
      * apply Hv. right. apply in_or_app. right. now left.
      * pose proof (descending_tail (d0 :: run) (e :: tail') Hdesc) as Ht.
        apply StronglySorted_inv in Ht. destruct Ht as [_ Ht].
        rewrite Forall_forall in Ht. now apply Ht.
Qed.

Lemma calculate_streak_calendar_witness :
  let today := mkdate 2026 3 2 in
  let quest d := mkRow "quest" "" d (mktime 9 0 0 0) (mktime 10 0 0 0)
                   true "#3788d8" in
  let df := [quest (mkdate 2026 2 28); quest (mkdate 2026 3 1);
             quest (mkdate 2026 2 25)] in
  exists d0, most_recent df d0
    /\ (exists d, completed_on df d /\ toordinal d = toordinal d0 - 1)
    /\ (forall d, completed_on df d -> toordinal d <> toordinal d0 - 2).
Proof.
  intros today quest df.
  assert (Hvalid : forall t, In t df -> valid_date (Date t) = true)
    by (intros t [<-|[<-|[<-|[]]]]; reflexivity).
  assert (Hn : calculate_streak today df = 2) by (vm_compute; reflexivity).
  assert (Hpos : 0 < 2) by lia.
  destruct (calculate_streak_calendar today df 2 Hvalid Hn Hpos)
    as (d0 & Hm & _ & Hrun & Hstop).
  exists d0. split; [exact Hm|]. split; [|exact Hstop].
  apply (Hrun 1). lia.
Defined.

(** X25.  The day of grace: a streak whose most recent day is today has
    the same value when it is computed the next day, and is 0 from the day
    after that on. *)
Theorem calculate_streak_grace (df : DataFrame) (d day0 day1 day2 : date) :
  most_recent df d ->
  days_between day0 d = 0 -> days_between day1 d = 1 ->
  2 <= days_between day2 d ->
  1 <= calculate_streak day0 df
  /\ calculate_streak day1 df = calculate_streak day0 df
  /\ calculate_streak day2 df = 0.
Proof.
  intros Hm H0 H1 H2.
  destruct (most_recent_dates df d Hm) as (rest & E).
  rewrite (calculate_streak_alive day0 df d rest E) by lia.
  rewrite (calculate_streak_alive day1 df d rest E) by lia.
  rewrite (calculate_streak_broken day2 df d rest E) by lia.
  split; [apply walk_ge|]. split; reflexivity.
Qed.

Lemma calculate_streak_grace_witness :
  let quest d := mkRow "quest" "" d (mktime 9 0 0 0) (mktime 10 0 0 0)
                   true "#3788d8" in
  let df := [quest (mkdate 2026 12 30); quest (mkdate 2026 12 31)] in
  calculate_streak (mkdate 2027 1 1) df
  = calculate_streak (mkdate 2026 12 31) df
  /\ calculate_streak (mkdate 2027 1 2) df = 0.
Proof.
  intros quest df.
  assert (Hm : most_recent df (mkdate 2026 12 31))
    by (eapply dates_head_most_recent; vm_compute; reflexivity).
  assert (H0 : days_between (mkdate 2026 12 31) (mkdate 2026 12 31) = 0)
    by reflexivity.
  assert (H1 : days_between (mkdate 2027 1 1) (mkdate 2026 12 31) = 1)
    by reflexivity.
  assert (H2 : 2 <= days_between (mkdate 2027 1 2) (mkdate 2026 12 31))
    by (vm_compute; discriminate).
  destruct (calculate_streak_grace df _ _ _ _ Hm H0 H1 H2) as (_ & E1 & E2).
  split; [exact E1|exact E2].
Defined.

End MoreStreaks.

(* ================================================================== *)
(** * 19. More on the boss *)
(* ================================================================== *)

Section MoreBoss.
Import BossManager UI SessionM.

(** X8.  Hits add up: a second call of [deal_damage] on the boss returned
    by a first one leaves the boss that one call with the sum of the hit
    counts leaves, and the two damages sum to the damage of that call. *)
Theorem deal_damage_adds_up (boss : Boss) (h1 h2 : Z) :
  fst (deal_damage (fst (deal_damage boss h1)) h2)
  = fst (deal_damage boss (h1 + h2))
  /\ snd (deal_damage boss h1) + snd (deal_damage (fst (deal_damage boss h1)) h2)
     = snd (deal_damage boss (h1 + h2)).
Proof.
  unfold deal_damage, GameConfig.BOSS_DMG_PER_TASK. cbn.
  split; [f_equal|]; lia.
Qed.

Lemma Qdiv_pos (a : Z) (p : positive) :
  (inject_Z a / inject_Z (Z.pos p) == a # p)%Q.
Proof. symmetry. apply Qmake_Qdiv. Qed.

Lemma Qdiv_neg (a : Z) (p : positive) :
  (inject_Z a / inject_Z (Z.neg p) == (- a) # p)%Q.
Proof.
  unfold Qdiv, Qinv, Qmult, Qeq, inject_Z. cbn [Qnum Qden]. lia.
Qed.

Lemma bar_cases (boss : Boss) :
  (no_bar boss
   /\ (hp_pct boss = None
       \/ exists pct, hp_pct boss = Some pct
                      /\ Streamlit.progress pct = None))
  \/ (~ no_bar boss
      /\ exists pct, hp_pct boss = Some pct
                     /\ Streamlit.progress pct = Some tt).
Proof.
  unfold no_bar, hp_pct.
  destruct (Z.eqb_spec (MaxHP boss) 0) as [E|N]; [left; tauto|].
  set (q := (inject_Z (CurrentHP boss) / inject_Z (MaxHP boss))%Q).
  assert (Hq : exists (n : Z) (p : positive),
             (q == n # p)%Q
             /\ ((0 < MaxHP boss /\ n = CurrentHP boss
                  /\ Z.pos p = MaxHP boss)
                 \/ (MaxHP boss < 0 /\ n = - CurrentHP boss
                     /\ Z.pos p = - MaxHP boss))).
  { unfold q. destruct (MaxHP boss) as [|p|p]; [lia| |].
    - exists (CurrentHP boss), p. split; [apply Qdiv_pos|]. left. lia.
    - exists (- CurrentHP boss), p. split; [apply Qdiv_neg|]. right. lia. }
  destruct Hq as (n & p & Hq & Hsign).
  assert (H0 : Qle_bool q 0 = true <-> n <= 0).
  { rewrite Qle_bool_iff, Hq. unfold Qle. cbn [Qnum Qden]. lia. }
  assert (H1 : Qle_bool q 1 = true <-> n <= Z.pos p).
  { rewrite Qle_bool_iff, Hq. unfold Qle. cbn [Qnum Qden]. lia. }
  assert (H0q : Qle_bool 0 q = true <-> 0 <= n).
  { rewrite Qle_bool_iff, Hq. unfold Qle. cbn [Qnum Qden]. lia. }
  unfold Streamlit.progress.
  destruct (Z_le_gt_dec n 0) as [Hn|Hn].
  - rewrite (proj2 H0 Hn).
    right. split; [lia|]. eexists. split; reflexivity.
  - assert (Qle_bool q 0 = false) as ->
      by (apply not_true_is_false; rewrite H0; lia).
    assert (Qle_bool 0 q = true) as E0 by (apply H0q; lia).
    destruct (Z_le_gt_dec n (Z.pos p)) as [Hp|Hp].
    + right. split; [lia|]. eexists. split; [reflexivity|].
      now rewrite E0, (proj2 H1 Hp).
    + assert (Qle_bool q 1 = false) as E1
        by (apply not_true_is_false; rewrite H1; lia).
      left. split; [lia|]. right. eexists. split; [reflexivity|].
      now rewrite E0, E1.
Qed.

Lemma defeat_check_cases (boss : Boss) (s : session) :
  (CurrentHP boss <= 0 /\ defeat_check boss s = (defeated s, Some tt))
  \/ (0 < CurrentHP boss /\ defeat_check boss s = (s, Some tt)).
Proof.
  unfold defeat_check.
  destruct (Z.leb_spec (CurrentHP boss) 0); [left|right];
    (split; [lia|reflexivity]).
Qed.

(** The three ways [render_boss_arena] ends. *)
Lemma render_boss_arena_cases (s : session) :
  (render_boss_arena s = (s, Some tt)
   /\ (active_boss s = None
       \/ exists boss, active_boss s = Some boss /\ ~ no_bar boss
                       /\ 0 < CurrentHP boss))
  \/ (render_boss_arena s = (defeated s, Some tt)
      /\ exists boss, active_boss s = Some boss /\ ~ no_bar boss
                      /\ CurrentHP boss <= 0)
  \/ (render_boss_arena s = (s, None)
      /\ exists boss, active_boss s = Some boss /\ no_bar boss).
Proof.
  unfold render_boss_arena, bind, get.
  destruct (active_boss s) as [boss|] eqn:Eb; [|left; split; [reflexivity|tauto]].
  destruct (bar_cases boss) as [(Hno & [Hp|(pct & Hp & Hbar)])
                               |(Hbar & pct & Hp & Hdraw)].
  - right; right. rewrite Hp. split; [reflexivity|]. now exists boss.
  - right; right. rewrite Hp. cbn [lift ret]. rewrite Hbar.
    split; [reflexivity|]. now exists boss.
  - rewrite Hp. cbn [lift ret]. rewrite Hdraw. cbn [lift ret].
    destruct (defeat_check_cases boss s) as [[Hhp ->]|[Hhp ->]].
    + right; left. split; [reflexivity|]. now exists boss.
    + left. split; [reflexivity|]. right. now exists boss.
Qed.



(** X10.  [render_boss_arena] either leaves the session as it is or turns
    it into the defeated session (500 more bonus XP, no boss, the same
    tasks), and the latter only for an active boss with no HP left. *)
Theorem render_boss_arena_frame (s : session) :
  fst (render_boss_arena s) = s
  \/ (fst (render_boss_arena s) = defeated s
      /\ exists boss, active_boss s = Some boss /\ CurrentHP boss <= 0).
Proof.
  destruct (render_boss_arena_cases s)
    as [[-> _]|[[-> (b & Hb & _ & Hhp)]|[-> _]]]; cbn [fst]; try tauto.
  right. split; [reflexivity|]. now exists b.
Qed.

(** X11.  The bonus for a defeat is given once: running
    [render_boss_arena] again on the session it left changes nothing
    more. *)
Theorem render_boss_arena_once (s : session) :
  render_boss_arena (fst (render_boss_arena s)) = render_boss_arena s.
Proof.
  destruct (render_boss_arena_cases s) as [[E _]|[[E _]|[E _]]];
    rewrite E; cbn [fst]; try exact E.
  destruct (render_boss_arena_cases (defeated s))
    as [[E' _]|[[_ (b & Hb & _)]|[_ (b & Hb & _)]]];
    [exact E'|discriminate Hb|discriminate Hb].
Qed.

End MoreBoss.

(* ================================================================== *)
(** * 20. The edit of the task table in [main] *)
(* ================================================================== *)

Section Edits.
Import Datetime DateOrder GamificationService BossManager.




(** The boss after an edit that scored [k] hits. *)
Lemma hit_boss (b : Boss) (k : Z) :
  fst (deal_damage b k)
  = mkBoss (Name b) (MaxHP b) (CurrentHP b - 10 * k) (Image b).
Proof.
  unfold deal_damage, GameConfig.BOSS_DMG_PER_TASK. cbn [fst].
  f_equal. lia.
Qed.





End Edits.

(* ================================================================== *)
(** * 21. The sidebar *)
(* ================================================================== *)

Section Sidebar.
Import Datetime GamificationService BossManager UI.

(** The session after the "Add" form of the sidebar. *)
Lemma render_sidebar_no_restore (w : sidebar_widgets) (s : session) :
  restore w = false ->
  let s1 := if add w
            then {| tasks := tasks s ++ [new_row (new_quest w)];
                    boss_xp := boss_xp s; active_boss := active_boss s |}
            else s in
  render_sidebar w s =
  match active_boss s with
  | None =>
      if summon w
      then ({| tasks := tasks s1; boss_xp := boss_xp s1;
               active_boss := Some (summoned (summon_name w) (summon_hp w)) |},
            Rerun)
      else (s1, Returned tt)
  | Some _ =>
      if flee w
      then ({| tasks := tasks s1; boss_xp := boss_xp s1;
               active_boss := None |}, Rerun)
      else (s1, Returned tt)
  end.
Proof.
  intros Hr. unfold render_sidebar, ScriptM.bind, ScriptM.get, ScriptM.ret.
  rewrite Hr.
  destruct (uploaded w), (add w), (active_boss s) eqn:Eb,
    (summon w), (flee w); cbn; rewrite ?Eb; reflexivity.
Qed.

Lemma render_sidebar_quiet (w : sidebar_widgets) (s : session) :
  quiet w -> render_sidebar w s = (s, Returned tt).
Proof.
  intros (Hr & Ha & Hs & Hf).
  rewrite (render_sidebar_no_restore w s Hr). rewrite Ha, Hs, Hf.
  destruct (active_boss s); reflexivity.
Qed.

Lemma dates_open_task (df : DataFrame) (t : Task) :
  Status t = false -> dates (df ++ [t]) = dates df.
Proof.
  intros Hs. unfold dates, completed. rewrite filter_app. cbn [filter].
  rewrite Hs. cbn [Bool.eqb]. now rewrite app_nil_r.
Qed.

(** The exception of X13: on the empty table the stats are computed with
    Python ints and returned for any bonus; with a first quest in the table
    the bonus 2^63 raises [OverflowError]. *)
Lemma first_quest_overflow (q : quest_form) :
  calculate_stats [] 9223372036854775808 <> None
  /\ calculate_stats [new_row q] 9223372036854775808 = None.
Proof. split; [discriminate|reflexivity]. Qed.

(** X13.  A quest added by the form is appended as not completed, so
    adding it changes neither the bonus XP nor the streak, nor what
    [calculate_stats] does, the one exception being a first quest added to
    an empty table while the bonus XP is no [int64] (the stats of the empty
    table are computed with Python ints, those of any other table with
    [numpy.int64], which such a bonus overflows). *)
Theorem add_quest_worth_nothing (w : sidebar_widgets) (s : session)
    (day : date) :
  restore w = false -> add w = true ->
  let s' := fst (render_sidebar w s) in
  tasks s' = tasks s ++ [new_row (new_quest w)]
  /\ boss_xp s' = boss_xp s
  /\ (tasks s <> [] \/ Numpy.fits_int64 (boss_xp s) = true ->
      calculate_stats (tasks s') (boss_xp s')
      = calculate_stats (tasks s) (boss_xp s))
  /\ calculate_streak day (tasks s') = calculate_streak day (tasks s).
Proof.
  intros Hr Ha s'.
  assert (Ht : tasks s' = tasks s ++ [new_row (new_quest w)]
               /\ boss_xp s' = boss_xp s).
  { unfold s'. rewrite (render_sidebar_no_restore w s Hr), Ha.
    destruct (active_boss s), (summon w), (flee w); split; reflexivity. }
  destruct Ht as [Ht Hb]. rewrite Ht, Hb.
  split; [reflexivity|]. split; [reflexivity|]. split.
  - intros Hok.
    rewrite <- (app_nil_r (tasks s)) at 2.
    apply open_task_worth_nothing; [reflexivity|].
    now rewrite app_nil_r.
  - apply calculate_streak_dates, dates_open_task. reflexivity.
Qed.

Lemma add_quest_worth_nothing_witness :
  let w := mksidebar_widgets None false
             (mkquest_form "Read the docs" "" (mkdate 2026 11 4)
                (mktime 9 0 0 0) (mktime 10 0 0 0) "#3788d8")
             true "Entropy Dragon" 100 false false in
  let s := mksession [StateRepository.DEFAULT_TASK (mkdate 2026 11 4)] 0
             None in
  List.length (tasks (fst (render_sidebar w s))) = 2%nat
  /\ calculate_streak (mkdate 2026 11 4) (tasks (fst (render_sidebar w s)))
     = calculate_streak (mkdate 2026 11 4) (tasks s).
Proof.
  intros w s.
  destruct (add_quest_worth_nothing w s (mkdate 2026 11 4) eq_refl eq_refl)
    as (Ht & _ & _ & Hstreak).
  split; [rewrite Ht; reflexivity|exact Hstreak].
Defined.

(** X14.  One boss at a time: in a run in which "Restore" is not pressed,
    while a boss is active the sidebar never puts another in its place,
    whatever the summon form holds; the boss stays as it is unless "Flee
    Battle" is pressed, which removes it, gives no bonus and ends the run in
    a rerun. *)
Theorem one_boss_at_a_time (w : sidebar_widgets) (s : session) (b : Boss) :
  restore w = false -> active_boss s = Some b ->
  let s' := fst (render_sidebar w s) in
  boss_xp s' = boss_xp s
  /\ (flee w = false -> active_boss s' = Some b)
  /\ (flee w = true ->
      active_boss s' = None /\ snd (render_sidebar w s) = Rerun).
Proof.
  intros Hr Hb s'. unfold s'.
  rewrite (render_sidebar_no_restore w s Hr), Hb.
  destruct (add w), (flee w); cbn [fst snd boss_xp active_boss tasks];
    (split; [reflexivity|]); (split; [intros H|intros H]);
    try discriminate H; try exact Hb; split; reflexivity.
Qed.

Lemma one_boss_at_a_time_witness :
  let w := mksidebar_widgets None false
             (mkquest_form "" "" (mkdate 2026 11 4) (mktime 9 0 0 0)
                (mktime 10 0 0 0) "#3788d8")
             false "Second Dragon" 500 true false in
  let dragon := mkBoss "Entropy Dragon" 100 40 "dragon" in
  active_boss (fst (render_sidebar w (mksession [] 0 (Some dragon))))
  = Some dragon.
Proof.
  intros w dragon.
  destruct (one_boss_at_a_time w (mksession [] 0 (Some dragon)) dragon
              eq_refl eq_refl) as (_ & Hstay & _).
  exact (Hstay eq_refl).
Defined.

(** X15.  With no boss active, "Summon" creates a boss at full HP and ends
    the run in a rerun.  For every HP the slider offers (50 to 500) the
    arena draws that boss and leaves the session as it is, and the boss is
    out of HP after [k] hits exactly when [10 * k] reaches its HP. *)
Theorem summon_boss (w : sidebar_widgets) (s : session) :
  restore w = false -> active_boss s = None -> summon w = true ->
  50 <= summon_hp w <= 500 ->
  let s' := fst (render_sidebar w s) in
  let boss := summoned (summon_name w) (summon_hp w) in
  snd (render_sidebar w s) = Rerun
  /\ active_boss s' = Some boss
  /\ CurrentHP boss = MaxHP boss
  /\ render_boss_arena s' = (s', Some tt)
  /\ forall k, CurrentHP (fst (deal_damage boss k)) <= 0
               <-> summon_hp w <= 10 * k.
Proof.
  intros Hr Hb Hs Hhp s' boss. unfold s'.
  rewrite (render_sidebar_no_restore w s Hr), Hb, Hs. cbn [fst snd].
  split; [reflexivity|]. split; [reflexivity|]. split; [reflexivity|].
  split.
  - match goal with |- render_boss_arena ?x = _ => set (s1 := x) end.
    destruct (render_boss_arena_cases s1)
      as [[E _]|[[_ (b & Eb & _ & Hzero)]|[_ (b & Eb & Hno)]]].
    + exact E.
    + injection Eb as <-. cbn [summoned CurrentHP] in Hzero. lia.
    + injection Eb as <-. unfold no_bar in Hno.
      cbn [summoned CurrentHP MaxHP] in Hno. lia.
  - intros k. rewrite hit_boss. cbn [CurrentHP summoned boss]. lia.
Qed.

Lemma summon_boss_witness :
  let w := mksidebar_widgets None false
             (mkquest_form "" "" (mkdate 2026 11 4) (mktime 9 0 0 0)
                (mktime 10 0 0 0) "#3788d8")
             false "Entropy Dragon" 100 true false in
  let s := mksession [] 0 None in
  render_boss_arena (fst (render_sidebar w s))
  = (fst (render_sidebar w s), Some tt).
Proof.
  intros w s.
  assert (Hhp : 50 <= summon_hp w <= 500) by (cbn; lia).
  destruct (summon_boss w s eq_refl eq_refl eq_refl Hhp)
    as (_ & _ & _ & Harena & _).
  exact Harena.
Defined.

(** X16.  A restore that succeeds ends the run at once: the session is the
    loaded one, and neither the quest form nor the boss form of that run
    is carried out. *)
Theorem restore_reruns (w : sidebar_widgets) (s : session)
    (json_data : SaveFile) :
  uploaded w = Some json_data -> restore w = true ->
  snd (StateRepository.load_data json_data s) = Some Loaded ->
  render_sidebar w s = (fst (StateRepository.load_data json_data s), Rerun).
Proof.
  intros Hu Hr Hl. unfold render_sidebar, ScriptM.bind, ScriptM.of_M.
  rewrite Hu, Hr.
  destruct (StateRepository.load_data json_data s) as [s1 r].
  cbn [snd] in Hl. subst r. reflexivity.
Qed.

Lemma restore_reruns_witness :
  let file := mkSaveFile None (Some 1500) None in
  let w := mksidebar_widgets (Some file) true
             (mkquest_form "Read the docs" "" (mkdate 2026 11 4)
                (mktime 9 0 0 0) (mktime 10 0 0 0) "#3788d8")
             true "Entropy Dragon" 100 true false in
  render_sidebar w (mksession [] 0 None) = (mksession [] 1500 None, Rerun).
Proof.
  intros file w.
  exact (restore_reruns w (mksession [] 0 None) file eq_refl eq_refl eq_refl).
Defined.

End Sidebar.

(* ================================================================== *)
(** * 22. More on loading *)
(* ================================================================== *)

Section MoreLoad.
Import Datetime Iso IsoFacts SessionM StateRepository.

Lemma date_fromisoformat_valid (s : string) (d : date) :
  date_fromisoformat s = Some d -> valid_date d = true.
Proof.
  unfold date_fromisoformat, make_date.
  destruct (read_digits 4 0 s) as [[y [|c s1]]|]; try discriminate.
  destruct (Ascii.eqb_spec c "-"%char) as [->|N];
    [|destruct c as [[] [] [] [] [] [] [] []]; try discriminate;
      contradiction N; reflexivity].
  destruct (read_digits 2 0 s1) as [[m [|c s2]]|]; try discriminate.
  destruct (Ascii.eqb_spec c "-"%char) as [->|N];
    [|destruct c as [[] [] [] [] [] [] [] []]; try discriminate;
      contradiction N; reflexivity].
  destruct (read_digits 2 0 s2) as [[dd [|c s3]]|]; try discriminate.
  destruct (valid_date (mkdate y m dd)) eqn:V; [|discriminate].
  now intros [= <-].
Qed.

Lemma make_time_valid (h m s us : Z) (t : time) :
  make_time h m s us = Some t -> valid_time t = true.
Proof.
  unfold make_time.
  destruct (valid_time (mktime h m s us)) eqn:V; [|discriminate].
  now intros [= <-].
Qed.

Lemma time_fromisoformat_valid (s : string) (t : time) :
  time_fromisoformat s = Some t -> valid_time t = true.
Proof.
  unfold time_fromisoformat.
  destruct (read_digits 2 0 s) as [[h [|c s1]]|]; try discriminate;
    [apply make_time_valid|].
  destruct (Ascii.eqb_spec c ":"%char) as [->|N];
    [|destruct c as [[] [] [] [] [] [] [] []]; try discriminate;
      contradiction N; reflexivity].
  destruct (read_digits 2 0 s1) as [[m [|c s2]]|]; try discriminate;
    [apply make_time_valid|].
  destruct (Ascii.eqb_spec c ":"%char) as [->|N];
    [|destruct c as [[] [] [] [] [] [] [] []]; try discriminate;
      contradiction N; reflexivity].
  destruct (read_digits 2 0 s2) as [[sec [|c s3]]|]; try discriminate;
    [apply make_time_valid|].
  destruct (Ascii.eqb_spec c "."%char) as [->|N];
    [|destruct c as [[] [] [] [] [] [] [] []]; try discriminate;
      contradiction N; reflexivity].
  destruct (read_fraction s3) as [us|]; [|discriminate].
  apply make_time_valid.
Qed.

(** The session a load that succeeds leaves. *)
Lemma load_data_eq (json_data : SaveFile) (prior : session) :
  load_data json_data prior =
  match parse_table (dict_get (f_tasks json_data) []) with
  | Some df =>
      ({| tasks := df; boss_xp := dict_get (f_boss_xp json_data) 0;
          active_boss := f_active_boss json_data |}, Some Loaded)
  | None => (half_loaded json_data prior, Some CorruptSaveFile)
  end.
Proof.
  unfold load_data, try_except, load_data_body, bind, set_boss_xp,
    set_active_boss, set_tasks, ret, parse_table, half_loaded.
  cbn [tasks boss_xp active_boss].
  destruct (dict_get (f_tasks json_data) []) as [|r rows]; [reflexivity|].
  cbn [empty negb]. set (l := r :: rows).
  destruct (apply_Date date_fromisoformat l) as [df1|]; [|reflexivity].
  cbn [lift ret].
  destruct (apply_Start time_fromisoformat df1) as [df2|]; [|reflexivity].
  cbn [lift ret].
  destruct (apply_End time_fromisoformat df2) as [df3|]; reflexivity.
Qed.

Lemma parse_table_rows (rows : list TaskRecord) (df : DataFrame) :
  parse_table rows = Some df ->
  Forall2 (fun r t =>
             date_fromisoformat (Date r) = Some (Date t)
             /\ time_fromisoformat (Start r) = Some (Start t)
             /\ time_fromisoformat (End_ r) = Some (End_ t)
             /\ Title t = Title r /\ Description t = Description r
             /\ Status t = Status r /\ Color t = Color r) rows df.
Proof.
  unfold parse_table.
  destruct (apply_Date date_fromisoformat rows) as [df1|] eqn:E1;
    [|discriminate].
  destruct (apply_Start time_fromisoformat df1) as [df2|] eqn:E2;
    [|discriminate].
  intros E3.
  apply apply_Some_Forall2 in E1, E2, E3.
  revert df1 df2 df E1 E2 E3.
  induction rows as [|r rows IH]; intros df1 df2 df E1 E2 E3.
  - inversion E1; subst. inversion E2; subst. inversion E3; subst.
    constructor.
  - inversion E1 as [|? r1 ? df1' H1 F1]; subst.
    inversion E2 as [|? r2 ? df2' H2 F2]; subst.
    inversion E3 as [|? r3 ? df3' H3 F3]; subst.
    constructor; [|eapply IH; eassumption].
    destruct (date_fromisoformat (Date r)) as [d|] eqn:Pd; [|discriminate].
    injection H1 as <-. cbn [Start End_] in H2.
    destruct (time_fromisoformat (Start r)) as [t1|] eqn:Ps; [|discriminate].
    injection H2 as <-. cbn [End_] in H3.
    destruct (time_fromisoformat (End_ r)) as [t2|] eqn:Pe; [|discriminate].
    injection H3 as <-. cbn. repeat split; reflexivity.
Qed.

Lemma parse_table_None (rows : list TaskRecord) :
  parse_table rows = None <-> exists r, In r rows /\ malformed r.
Proof.
  split.
  - unfold parse_table, malformed.
    destruct (apply_Date date_fromisoformat rows) as [df1|] eqn:E1.
    + pose proof (apply_Some_Forall2 _ _ _ E1) as F1.
      destruct (apply_Start time_fromisoformat df1) as [df2|] eqn:E2.
      * pose proof (apply_Some_Forall2 _ _ _ E2) as F2.
        intros E3. apply apply_None in E3. destruct E3 as (r2 & Hr2 & H3).
        apply Forall2_flip in F1, F2.
        destruct (Forall2_In_l _ _ _ r2 F2 Hr2) as (r1 & Hr1 & H2).
        destruct (Forall2_In_l _ _ _ r1 F1 Hr1) as (r & Hr & H1).
        cbv beta in H1, H2. exists r. split; [exact Hr|].
        destruct (date_fromisoformat (Date r)); [|discriminate].
        injection H1 as <-. cbn [Start End_] in H2.
        destruct (time_fromisoformat (Start r)); [|discriminate].
        injection H2 as <-. cbn [End_] in H3.
        destruct (time_fromisoformat (End_ r)); [discriminate|tauto].
      * intros _. apply apply_None in E2. destruct E2 as (r1 & Hr1 & H2).
        apply Forall2_flip in F1.
        destruct (Forall2_In_l _ _ _ r1 F1 Hr1) as (r & Hr & H1).
        cbv beta in H1. exists r. split; [exact Hr|].
        destruct (date_fromisoformat (Date r)); [|discriminate].
        injection H1 as <-. cbn [Start] in H2.
        destruct (time_fromisoformat (Start r)); [discriminate|tauto].
    + intros _. apply apply_None in E1. destruct E1 as (r & Hr & H1).
      exists r. split; [exact Hr|].
      destruct (date_fromisoformat (Date r)); [discriminate|tauto].
  - intros (r & Hr & Hbad).
    destruct (parse_table rows) as [df|] eqn:E; [|reflexivity].
    apply parse_table_rows in E.
    destruct (Forall2_In_l _ _ _ r E Hr) as (t & _ & Hd & Hs & He & _).
    destruct Hbad as [H|[H|H]]; congruence.
Qed.

(** X17.  [load_data] never raises: it ends in one of its two reports.
    It reports a corrupt save file only if some task of the file has a date,
    start or end text outside the forms [YYYY-MM-DD] and
    [HH[:MM[:SS[.fff[fff]]]]] with fields in range, so a file whose texts
    are all of these forms loads; a file without tasks, or without any key
    at all, always loads. *)
Theorem load_data_report (json_data : SaveFile) (prior : session) :
  (snd (load_data json_data prior) = Some Loaded
   \/ snd (load_data json_data prior) = Some CorruptSaveFile)
  /\ (snd (load_data json_data prior) = Some CorruptSaveFile ->
      exists r, In r (dict_get (f_tasks json_data) []) /\ malformed r)
  /\ (dict_get (f_tasks json_data) [] = [] ->
      snd (load_data json_data prior) = Some Loaded).
Proof.
  rewrite load_data_eq.
  destruct (parse_table (dict_get (f_tasks json_data) [])) as [df|] eqn:E;
    cbn [snd].
  - split; [now left|]. split; [discriminate|reflexivity].
  - split; [now right|]. split; [intros _; now apply parse_table_None|].
    intros H. rewrite H in E. discriminate E.
Qed.

Lemma load_data_report_witness :
  snd (load_data (mkSaveFile None (Some 1500) None) fighting) = Some Loaded.
Proof.
  destruct (load_data_report (mkSaveFile None (Some 1500) None) fighting)
    as (_ & _ & Hempty).
  apply Hempty. reflexivity.
Defined.

(** X18.  A load that is reported as corrupt is half done: the task table
    is the one of the prior session, while the bonus XP and the boss are
    those of the file (0 and no boss where the file has none). *)
Theorem failed_load_is_half_done (json_data : SaveFile) (prior : session) :
  snd (load_data json_data prior) = Some CorruptSaveFile ->
  let s := fst (load_data json_data prior) in
  tasks s = tasks prior
  /\ boss_xp s = dict_get (f_boss_xp json_data) 0
  /\ active_boss s = f_active_boss json_data.
Proof.
  rewrite load_data_eq.
  destruct (parse_table (dict_get (f_tasks json_data) [])) as [df|];
    cbn [fst snd]; [discriminate|].
  intros _. repeat split.
Qed.

Lemma failed_load_is_half_done_witness :
  let s := fst (load_data bad_date_file fighting) in
  tasks s = tasks fighting /\ boss_xp s = 0 /\ active_boss s = None.
Proof.
  apply (failed_load_is_half_done bad_date_file fighting).
  vm_compute. reflexivity.
Defined.

(** X19.  A load that succeeds replaces the whole session: what it leaves
    does not depend on the session it started from.  Keys that the file does
    not have are loaded as an empty task table, 0 bonus XP and no boss. *)
Theorem successful_load_overwrites (json_data : SaveFile)
    (prior other : session) :
  snd (load_data json_data prior) = Some Loaded ->
  load_data json_data other = load_data json_data prior
  /\ (f_tasks json_data = None -> tasks (fst (load_data json_data prior)) = [])
  /\ (f_boss_xp json_data = None ->
      boss_xp (fst (load_data json_data prior)) = 0)
  /\ (f_active_boss json_data = None ->
      active_boss (fst (load_data json_data prior)) = None).
Proof.
  rewrite !load_data_eq.
  destruct (parse_table (dict_get (f_tasks json_data) [])) as [df|] eqn:E;
    cbn [fst snd]; [|discriminate].
  intros _. cbn [tasks boss_xp active_boss].
  split; [reflexivity|]. split; [|split].
  - intros H. rewrite H in E. cbn in E. now injection E as <-.
  - now intros ->.
  - now intros ->.
Qed.

Lemma successful_load_overwrites_witness :
  load_data (mkSaveFile None None None) fighting
  = (mksession [] 0 None, Some Loaded).
Proof.
  assert (H : snd (load_data (mkSaveFile None None None) (mksession [] 0 None))
              = Some Loaded) by reflexivity.
  destruct (successful_load_overwrites (mkSaveFile None None None)
              (mksession [] 0 None) fighting H) as [E _].
  rewrite E. reflexivity.
Defined.

(** X20.  Loading keeps the task table well formed: every date and time
    that [load_data] stores is one the [date] and [time] constructors
    accept, so a session that was loaded can be exported and loaded
    again. *)
Theorem load_data_well_formed (json_data : SaveFile) (prior : session) :
  well_formed prior = true ->
  well_formed (fst (load_data json_data prior)) = true.
Proof.
  intros W. rewrite load_data_eq.
  destruct (parse_table (dict_get (f_tasks json_data) [])) as [df|] eqn:E;
    cbn [fst]; [|exact W].
  unfold well_formed. cbn [tasks]. apply forallb_forall. intros t Ht.
  apply parse_table_rows, Forall2_flip in E.
  destruct (Forall2_In_l _ _ _ t E Ht) as (r & _ & Hd & Hs & He & _).
  unfold well_formed_task.
  rewrite (date_fromisoformat_valid _ _ Hd),
    (time_fromisoformat_valid _ _ Hs), (time_fromisoformat_valid _ _ He).
  reflexivity.
Qed.

Lemma load_data_well_formed_witness :
  well_formed
    (fst (load_data
            (mkSaveFile
               (Some [mkRow "Read the docs" "" "2026-11-04" "09:30" "10:00:00"
                        false "#3788d8"]) None None)
            fighting)) = true.
Proof.
  apply load_data_well_formed. vm_compute. reflexivity.
Defined.

(** X21.  Loading the same file a second time changes nothing: the second
    load ends with the session and the report of the first, whether the
    file is corrupt or not. *)
Theorem load_data_twice (json_data : SaveFile) (prior : session) :
  load_data json_data (fst (load_data json_data prior))
  = load_data json_data prior.
Proof.
  rewrite !load_data_eq.
  destruct (parse_table (dict_get (f_tasks json_data) [])) as [df|];
    reflexivity.
Qed.

End MoreLoad.

(* ================================================================== *)
(** * 23. Whole runs of [main] *)
(* ================================================================== *)

Section Runs.
Import Datetime GamificationService BossManager UI StateRepository.

(** A session that has its keys is what [initialize_session] returns. *)
Lemma initialize_stored (day : date) (s : session) :
  initialize_session day (stored s) = s.
Proof. destruct s; reflexivity. Qed.

(** A run in which no button of the sidebar is pressed: the session is
    exported for the download button, the display is computed, the arena is
    drawn, and then the quest editor raises. *)
Lemma main_quiet (hp : int_class) (w : widgets) (s : session) :
  quiet (sidebar w) ->
  main hp w (stored s) =
  match export_data hp s, calculate_stats (tasks s) (boss_xp s) with
  | Some _, Some _ => (fst (render_boss_arena s), Raised)
  | _, _ => (s, Raised)
  end.
Proof.
  intros Hq. unfold main. rewrite initialize_stored.
  unfold main_script, ScriptM.bind at 1. unfold ScriptM.get at 1.
  unfold ScriptM.bind at 1. unfold ScriptM.of_option at 1.
  destruct (export_data hp s) as [f|]; [|reflexivity].
  unfold ScriptM.bind at 1. rewrite (render_sidebar_quiet _ s Hq).
  unfold ScriptM.bind at 1. unfold ScriptM.get at 1.
  unfold ScriptM.bind at 1. unfold ScriptM.of_option at 1.
  destruct (calculate_stats (tasks s) (boss_xp s)) as [st|] eqn:E;
    [|reflexivity].
  unfold ScriptM.bind at 1. unfold ScriptM.of_option at 1.
  rewrite (render_hud_ok _ _ _ st E).
  unfold ScriptM.bind, ScriptM.of_M, render_task_editor, SessionM.raise.
  destruct (render_boss_arena s) as [s1 [[]|]]; reflexivity.
Qed.

Lemma arena_defeat (s : session) (b : Boss) :
  active_boss s = Some b -> 0 < MaxHP b -> CurrentHP b <= 0 ->
  render_boss_arena s = (defeated s, Some tt).
Proof.
  intros Hb Hmax Hhp.
  destruct (render_boss_arena_cases s)
    as [[_ [H|(b' & Hb' & _ & Hpos)]]|[[E _]|[_ (b' & Hb' & Hno)]]].
  - congruence.
  - rewrite Hb in Hb'. injection Hb' as <-. lia.
  - exact E.
  - rewrite Hb in Hb'. injection Hb' as <-. unfold no_bar in Hno. lia.
Qed.

(** X22.  The run that finds the boss out of HP, with nothing pressed in
    the sidebar: when [CurrentHP] is a Python int, the run gives the bonus,
    removes the boss and then ends in the exception of the quest editor;
    when [CurrentHP] is a [numpy.int64], as the edit block leaves it, the
    run ends in the [TypeError] of [export_data] before anything else and
    the defeat is not found.  (HP values below 2^53 in magnitude; a bonus
    XP with which [calculate_stats] returns.) *)
Theorem victory_run (w : widgets) (s : session) (b : Boss) :
  quiet (sidebar w) ->
  active_boss s = Some b ->
  0 < MaxHP b < 9007199254740992 ->
  -9007199254740992 < CurrentHP b <= 0 ->
  tasks s = [] \/ Numpy.fits_int64 (boss_xp s) = true ->
  main py_int w (stored s) = (defeated s, Raised)
  /\ main np_int64 w (stored s) = (s, Raised).
Proof.
  intros Hq Hb Hmax Hhp Hxp. rewrite !(main_quiet _ w s Hq).
  unfold export_data. rewrite Hb.
  destruct (calculate_stats_returns (tasks s) (boss_xp s) Hxp) as (st & ->).
  rewrite (arena_defeat s b Hb) by lia. split; reflexivity.
Qed.

Lemma victory_run_witness :
  let w := mkwidgets (mkdate 2026 11 4)
             (mksidebar_widgets None false
                (mkquest_form "" "" (mkdate 2026 11 4) (mktime 9 0 0 0)
                   (mktime 10 0 0 0) "#3788d8")
                false "Entropy Dragon" 100 false false) in
  let s := mksession [DEFAULT_TASK (mkdate 2026 11 4)] 0
             (Some (mkBoss "Entropy Dragon" 100 (-5) "dragon")) in
  main py_int w (stored s)
  = (mksession [DEFAULT_TASK (mkdate 2026 11 4)] 500 None, Raised).
Proof.
  intros w s.
  assert (Hq : quiet (sidebar w)) by (repeat split).
  assert (Hmax : 0 < 100 < 9007199254740992) by lia.
  assert (Hhp : -9007199254740992 < -5 <= 0) by lia.
  assert (Hxp : tasks s = [] \/ Numpy.fits_int64 (boss_xp s) = true)
    by (right; reflexivity).
  destruct (victory_run w s (mkBoss "Entropy Dragon" 100 (-5) "dragon")
              Hq eq_refl Hmax Hhp Hxp) as [E _].
  rewrite E. reflexivity.
Defined.





End Runs.
